(** * newsie: passwordless sign-in and profile synchronisation

    A shallow embedding of the two React components of the repository,
    [Auth] (src/Auth.tsx) and [Account] (the profile page), and the
    properties of their sign-in and profile workflows.

    The components are modelled as they are written: the [useState] cells
    and the react-hook-form object make up a component state, the bodies of
    the asynchronous handlers are programs over that state which suspend at
    each [await] of a collaborator call, and the JSX that is returned is a
    function from the state to a view.  The collaborators (the supabase
    client, the zod string checks, the browser's check of an email input,
    the toast hook) are not part of the repository: their answers are
    inputs of the model. *)

From Stdlib Require Import String Ascii List Bool Arith Lia.
Import ListNotations.
Local Open Scope string_scope.
Local Open Scope list_scope.

(** ** JavaScript values seen by the handlers *)

(** A value that reaches a [catch] clause.  The handlers observe two things
    of it: whether it is an instance of [Error] (and then its [message]),
    and nothing else.  A value that is not an [Error] instance may still be
    an object with a [message] property, which the handlers never read. *)
Inductive thrown : Type :=
| ErrorInstance (message : string)
| NotAnError (message : option string).

(** The [message] property of a thrown value, when it has one. *)
Definition message_of (e : thrown) : option string :=
  match e with
  | ErrorInstance m => Some m
  | NotAnError o => o
  end.

(** How an awaited promise settles. *)
Inductive settled (A : Type) : Type :=
| Fulfilled (a : A)
| Rejected (reason : thrown).
Arguments Fulfilled {A} a.
Arguments Rejected {A} reason.

(** JavaScript truthiness of a string: [s && ...], [s || ...]. *)
Definition truthy (s : string) : bool := negb (s =? "").

(** [o || ""] for a nullable string column. *)
Definition or_empty (o : option string) : string :=
  match o with
  | Some s => s
  | None => ""
  end.

(** The argument of [toast({ variant, title, description })]. *)
Inductive ToastVariant : Type := DefaultVariant | Destructive.

Record Toast : Type := mkToast {
  variant : ToastVariant;
  title : string;
  description : string
}.

(** ** Asynchronous handlers

    A handler body is a program over the component state [St] that reads
    the state, updates it, throws, or issues a request [Req] to a
    collaborator and suspends until the promise settles with a [Resp]. *)
Section Async.
Variables St Req Resp : Type.

Inductive prog (A : Type) : Type :=
| Ret (a : A)
| Throw (e : thrown)
| Get (k : St -> prog A)
| Update (f : St -> St) (k : prog A)
| Call (q : Req) (k : settled Resp -> prog A).

Arguments Ret {A} a.
Arguments Throw {A} e.
Arguments Get {A} k.
Arguments Update {A} f k.
Arguments Call {A} q k.

Fixpoint bind {A B : Type} (p : prog A) (f : A -> prog B) : prog B :=
  match p with
  | Ret a => f a
  | Throw e => Throw e
  | Get k => Get (fun s => bind (k s) f)
  | Update g k => Update g (bind k f)
  | Call q k => Call q (fun r => bind (k r) f)
  end.

(** [await q]: a rejected promise throws at the [await]. *)
Definition await (q : Req) : prog Resp :=
  Call q (fun r =>
    match r with
    | Fulfilled a => Ret a
    | Rejected e => Throw e
    end).

(** [try { p } finally { fin }]: [fin] runs however [p] completes, and the
    completion of [p] is kept when [fin] completes normally. *)
Fixpoint finally (p fin : prog unit) : prog unit :=
  match p with
  | Ret _ => fin
  | Throw e => bind fin (fun _ => Throw e)
  | Get k => Get (fun s => finally (k s) fin)
  | Update g k => Update g (finally k fin)
  | Call q k => Call q (fun r => finally (k r) fin)
  end.

(** [try { body } catch (error) { handler error } finally { fin }]. *)
Fixpoint try_catch_finally (body : prog unit) (handler : thrown -> prog unit)
         (fin : prog unit) : prog unit :=
  match body with
  | Ret _ => fin
  | Throw e => finally (handler e) fin
  | Get k => Get (fun s => try_catch_finally (k s) handler fin)
  | Update g k => Update g (try_catch_finally k handler fin)
  | Call q k => Call q (fun r => try_catch_finally (k r) handler fin)
  end.

(** The running component: its state, the collaborator calls that have
    not settled yet, each with the rest of the handler that awaits it,
    and the log of every call issued so far. *)
Record machine : Type := mkMachine {
  ui : St;
  pending : list (Req * (settled Resp -> prog unit));
  issued : list Req
}.

(** Runs a handler up to its first suspension.  A handler that ends, or
    that ends by an uncaught throw, leaves the state as it is then. *)
Fixpoint exec (p : prog unit) (m : machine) : machine :=
  match p with
  | Ret _ => m
  | Throw _ => m
  | Get k => exec (k (ui m)) m
  | Update f k => exec k (mkMachine (f (ui m)) (pending m) (issued m))
  | Call q k => mkMachine (ui m) (pending m ++ [(q, k)]) (issued m ++ [q])
  end.

Definition remove_nth {A : Type} (i : nat) (l : list A) : list A :=
  firstn i l ++ skipn (S i) l.

(** The [i]-th pending call settles with [r]: the handler that awaits it
    resumes.  Nothing happens when there is no such call. *)
Definition settle (i : nat) (r : settled Resp) (m : machine) : machine :=
  match nth_error (pending m) i with
  | Some (_, k) =>
      exec (k r) (mkMachine (ui m) (remove_nth i (pending m)) (issued m))
  | None => m
  end.
End Async.

Arguments Ret {St Req Resp A} a.
Arguments Throw {St Req Resp A} e.
Arguments Get {St Req Resp A} k.
Arguments Update {St Req Resp A} f k.
Arguments Call {St Req Resp A} q k.
Arguments bind {St Req Resp A B} p f.
Arguments await {St Req Resp} q.
Arguments finally {St Req Resp} p fin.
Arguments try_catch_finally {St Req Resp} body handler fin.
Arguments mkMachine {St Req Resp} ui pending issued.
Arguments ui {St Req Resp} m.
Arguments pending {St Req Resp} m.
Arguments issued {St Req Resp} m.
Arguments exec {St Req Resp} p m.
Arguments settle {St Req Resp} i r m.
Arguments remove_nth {A} i l.

Declare Scope prog_scope.
Delimit Scope prog_scope with prog.
Notation "x <- p ;; q" := (bind p (fun x => q))
  (at level 61, p at next level, right associativity) : prog_scope.
Notation "p ;; q" := (bind p (fun _ => q))
  (at level 61, right associativity) : prog_scope.
Local Open Scope prog_scope.

(** ** The sign-in page: src/Auth.tsx *)
Module Auth.

(** [z.infer<typeof formSchema>]. *)
Record Values : Type := mkValues { email : string }.

(** [form.formState.errors]: the message under the email field, if any. *)
Record Errors : Type := mkErrors { email_error : option string }.

(** The react-hook-form object returned by [useForm]. *)
Record FormState : Type := mkForm {
  values : Values;
  errors : Errors
}.

Definition defaultValues : Values := {| email := "" |}.
Definition no_errors : Errors := {| email_error := None |}.

(** The state of the component: the two [useState] cells, the form, and
    the toasts raised so far through [useToast]. *)
Record State : Type := mkState {
  loading : bool;
  showSuccess : bool;
  form : FormState;
  toasts : list Toast
}.

(** The one collaborator call of the page. *)
Inductive request : Type :=
| signInWithOtp (email : string).

(** What the call resolves to: [{ error }], [null] when it went through. *)
Record response : Type := mkResponse { error : option thrown }.

Definition handler_body : Type := prog State request response unit.

Definition setLoading (b : bool) : handler_body :=
  Update (fun st => mkState b (showSuccess st) (form st) (toasts st)) (Ret tt).

Definition setShowSuccess (b : bool) : handler_body :=
  Update (fun st => mkState (loading st) b (form st) (toasts st)) (Ret tt).

Definition setForm (f : FormState) : handler_body :=
  Update (fun st => mkState (loading st) (showSuccess st) f (toasts st)) (Ret tt).

(** [form.reset()]: back to the default values, errors dropped. *)
Definition form_reset : handler_body :=
  setForm (mkForm defaultValues no_errors).

Definition toast (t : Toast) : handler_body :=
  Update (fun st => mkState (loading st) (showSuccess st) (form st) (toasts st ++ [t]))
         (Ret tt).

Section Schema.
(** The check behind [z.string().email(...)]. *)
Variable is_email : string -> bool.

(** [formSchema] run on the form's values: the parsed values, or the
    message for the email field. *)
Definition formSchema (v : Values) : Values + Errors :=
  if is_email (email v)
  then inl {| email := email v |}
  else inr {| email_error := Some "Please enter a valid email address." |}.

(** [form.handleSubmit(onValid)] with [zodResolver(formSchema)]: the
    values go through the schema; [onValid] runs on the parsed values, or
    the errors are stored in the form and [onValid] does not run. *)
Definition handleSubmit (onValid : Values -> handler_body) : handler_body :=
  Get (fun st =>
    match formSchema (values (form st)) with
    | inl parsed => setForm (mkForm (values (form st)) no_errors) ;; onValid parsed
    | inr errs => setForm (mkForm (values (form st)) errs)
    end).
End Schema.

Definition onSubmit (values : Values) : handler_body :=
  try_catch_finally
    (setLoading true ;;
     setShowSuccess false ;;
     r <- await (signInWithOtp (email values)) ;;
     (match error r with
      | Some error => Throw error
      | None => Ret tt
      end) ;;
     setShowSuccess true ;;
     form_reset ;;
     toast {| variant := DefaultVariant;
              title := "Magic link sent!";
              description := "Check your email for the login link." |})
    (fun error =>
     toast {| variant := Destructive;
              title := "Error";
              description := match error with
                             | ErrorInstance message => message
                             | NotAnError _ => "An error occurred"
                             end |})
    (setLoading false).

(** What the returned JSX shows of the state: the "Check your email" alert,
    the email input and the message under it, and the submit button. *)
Record View : Type := mkView {
  success_alert : bool;
  email_input : string;
  email_message : option string;
  submit_disabled : bool;
  submit_label : string
}.

Definition render (st : State) : View :=
  {| success_alert := showSuccess st;
     email_input := email (values (form st));
     email_message := email_error (errors (form st));
     submit_disabled := loading st;
     submit_label := if loading st then "Sending magic link" else "Send magic link" |}.

Definition page : Type := machine State request response.

(** The page as first rendered. *)
Definition initial : page :=
  mkMachine (mkState false false (mkForm defaultValues no_errors) []) [] [].

(** The user edits the email input: react-hook-form stores the new value
    and, once the form was submitted, revalidates it.  The edit touches the
    form object only. *)
Definition edit (f : FormState) (m : page) : page :=
  mkMachine (mkState (loading (ui m)) (showSuccess (ui m)) f (toasts (ui m)))
            (pending m) (issued m).

(** The browser reports the email input as invalid on a submission: the
    input has [type="email"] and the form has no [noValidate], so the
    browser checks the value ([input_valid]) before it fires the submit
    event, and when the check fails it shows its own message at the input
    and submits nothing. *)
Definition browser_reports (input_valid : string -> bool) (m : page) : bool :=
  negb (submit_disabled (render (ui m))) &&
  negb (input_valid (email (values (form (ui m))))).

(** The user submits the form, by the button or from the input.  A form
    whose submit button is disabled is not submitted, and neither is one
    whose email input the browser reports as invalid; otherwise
    [form.handleSubmit(onSubmit)] runs. *)
Definition submit (input_valid is_email : string -> bool) (m : page) : page :=
  if submit_disabled (render (ui m))
  then m
  else if input_valid (email (values (form (ui m))))
       then exec (handleSubmit is_email onSubmit) m
       else m.

(** User actions and collaborator answers that drive the page. *)
Inductive event : Type :=
| Edit (f : FormState)
| Submit
| Settle (i : nat) (r : settled response).

Definition step (input_valid is_email : string -> bool) (e : event) (m : page)
  : page :=
  match e with
  | Edit f => edit f m
  | Submit => submit input_valid is_email m
  | Settle i r => settle i r m
  end.

Definition run (input_valid is_email : string -> bool) (es : list event) (m : page)
  : page :=
  fold_left (fun m e => step input_valid is_email e m) es m.

(** The awaited call went through: the promise resolved to [{ error: null }]. *)
Definition succeeded (r : settled response) : bool :=
  match r with
  | Fulfilled {| error := None |} => true
  | _ => false
  end.

(** The value a failed call leaves in the handler's [catch]. *)
Definition failure (r : settled response) : option thrown :=
  match r with
  | Fulfilled res => error res
  | Rejected e => Some e
  end.

End Auth.

(** ** The profile page *)
Module Account.

(** [interface Session { user: User }], with the two properties of the
    supabase [User] that the page reads. *)
Record User : Type := mkUser { id : string; email : string }.
Record Session : Type := mkSession { user : User }.

(** [z.infer<typeof formSchema>]. *)
Record Values : Type := mkValues {
  username : string;
  website : string;
  avatar_url : string
}.

(** [form.formState.errors]: the message of each field, if any. *)
Record Errors : Type := mkErrors {
  username_error : option string;
  website_error : option string;
  avatar_url_error : option string
}.

Record FormState : Type := mkForm {
  values : Values;
  errors : Errors
}.

Definition defaultValues : Values :=
  {| username := ""; website := ""; avatar_url := "" |}.
Definition no_errors : Errors :=
  {| username_error := None; website_error := None; avatar_url_error := None |}.

(** The state of the component: the two [useState] cells, the form, and
    the toasts raised so far. *)
Record State : Type := mkState {
  loading : bool;
  error : option string;
  form : FormState;
  toasts : list Toast
}.

(** A JavaScript object with string values, keys in insertion order. *)
Definition object : Type := list (string * string).

(** [o[k] = v]: an existing key keeps its place, a new one goes last. *)
Fixpoint obj_set (k v : string) (o : object) : object :=
  match o with
  | [] => [(k, v)]
  | (k', v') :: o' => if k' =? k then (k, v) :: o' else (k', v') :: obj_set k v o'
  end.

(** [{ ...dst, ...src }]: the properties of [src] written over [dst]. *)
Definition spread (src dst : object) : object :=
  fold_left (fun o kv => obj_set (fst kv) (snd kv) o) src dst.

Definition keys (o : object) : list string := map fst o.

Definition entries (v : Values) : object :=
  [("username", username v); ("website", website v); ("avatar_url", avatar_url v)].

(** The row that [select(`username, website, avatar_url`)] yields; each
    column may be null. *)
Record ProfileRow : Type := mkRow {
  data_username : option string;
  data_website : option string;
  data_avatar_url : option string
}.

(** The collaborator calls of the page. *)
Inductive request : Type :=
| select_single (table columns id : string)
| upsert (table : string) (row : object)
| signOut.

(** What a call resolves to: [{ data, error }]. *)
Module Response.
Record t : Type := mk { data : option ProfileRow; error : option thrown }.
End Response.

Definition handler_body : Type := prog State request Response.t unit.

Definition setLoading (b : bool) : handler_body :=
  Update (fun st => mkState b (error st) (form st) (toasts st)) (Ret tt).

Definition setError (e : option string) : handler_body :=
  Update (fun st => mkState (loading st) e (form st) (toasts st)) (Ret tt).

Definition setForm (f : FormState) : handler_body :=
  Update (fun st => mkState (loading st) (error st) f (toasts st)) (Ret tt).

(** [form.reset(v)]: the form takes the values [v], errors dropped. *)
Definition form_reset (v : Values) : handler_body :=
  setForm (mkForm v no_errors).

Definition toast (t : Toast) : handler_body :=
  Update (fun st => mkState (loading st) (error st) (form st) (toasts st ++ [t]))
         (Ret tt).

Section Schema.
(** The check behind [z.string().url(...)], and the message zod gives when
    [url()] is called without one. *)
Variable is_url : string -> bool.
Variable invalid_url : string.

(** [z.string().min(2, { message })]. *)
Definition min2 (s : string) : option string :=
  if (String.length s <? 2)%nat
  then Some "Username must be at least 2 characters."
  else None.

(** [z.string().url({ message }).optional().or(z.literal(""))] on a string:
    a URL passes, the empty string passes, anything else carries the
    message of the [url] check. *)
Definition url_or_empty (message : string) (s : string) : option string :=
  if is_url s then None
  else if s =? "" then None
  else Some message.

Definition issues (v : Values) : Errors :=
  {| username_error := min2 (username v);
     website_error := url_or_empty "Please enter a valid URL" (website v);
     avatar_url_error := url_or_empty invalid_url (avatar_url v) |}.

(** [formSchema] run on the form's values: the parsed values, or the
    messages of the fields that failed. *)
Definition formSchema (v : Values) : Values + Errors :=
  match issues v with
  | {| username_error := None; website_error := None; avatar_url_error := None |} =>
      inl {| username := username v; website := website v; avatar_url := avatar_url v |}
  | errs => inr errs
  end.

(** [form.handleSubmit(onValid)] with [zodResolver(formSchema)]. *)
Definition handleSubmit (onValid : Values -> handler_body) : handler_body :=
  Get (fun st =>
    match formSchema (values (form st)) with
    | inl parsed => setForm (mkForm (values (form st)) no_errors) ;; onValid parsed
    | inr errs => setForm (mkForm (values (form st)) errs)
    end).
End Schema.

(** The body of the effect; it runs when the page mounts and again when
    [session] changes. *)
Definition getProfile (session : Session) : handler_body :=
  try_catch_finally
    (setLoading true ;;
     setError None ;;
     r <- await (select_single "profiles" "username, website, avatar_url"
                               (id (user session))) ;;
     (match Response.error r with
      | Some error => Throw error
      | None => Ret tt
      end) ;;
     match Response.data r with
     | Some data =>
         form_reset {| username := or_empty (data_username data);
                       website := or_empty (data_website data);
                       avatar_url := or_empty (data_avatar_url data) |}
     | None => Ret tt
     end)
    (fun error =>
     setError (Some match error with
                    | ErrorInstance message => message
                    | NotAnError _ => "An error occurred"
                    end))
    (setLoading false).

(** [now] is [new Date().toISOString()] at the time of the call. *)
Definition onSubmit (session : Session) (now : string) (values : Values)
  : handler_body :=
  try_catch_finally
    (setLoading true ;;
     setError None ;;
     let updates :=
       obj_set "updated_at" now
         (spread (entries values) (obj_set "id" (id (user session)) [])) in
     r <- await (upsert "profiles" updates) ;;
     (match Response.error r with
      | Some error => Throw error
      | None => Ret tt
      end) ;;
     toast {| variant := DefaultVariant;
              title := "Profile updated";
              description := "Your profile has been successfully updated." |})
    (fun error =>
     setError (Some match error with
                    | ErrorInstance message => message
                    | NotAnError _ => "An error occurred"
                    end))
    (setLoading false).

Definition handleSignOut : handler_body :=
  _ <- await signOut ;;
  toast {| variant := DefaultVariant;
           title := "Signed out";
           description := "You have been successfully signed out." |}.

(** What [CardContent] shows of the state: the error alert, and either the
    loading skeleton or the form. *)
Record FormView : Type := mkFormView {
  username_input : string;
  username_message : option string;
  website_input : string;
  website_message : option string;
  email_input : string;
  submit_disabled : bool;
  submit_label : string
}.

Record View : Type := mkView {
  alert : option string;
  skeleton : bool;
  form_view : option FormView
}.

Definition render (session : Session) (st : State) : View :=
  {| alert := match error st with
              | Some message => if truthy message then Some message else None
              | None => None
              end;
     skeleton := loading st;
     form_view :=
       if loading st then None
       else Some {| username_input := username (values (form st));
                    username_message := username_error (errors (form st));
                    website_input := website (values (form st));
                    website_message := website_error (errors (form st));
                    email_input := email (user session);
                    submit_disabled := loading st;
                    submit_label := if loading st then "Saving..." else "Update Profile" |}
  |}.

Definition page : Type := machine State request Response.t.

(** [useState(true)], [useState(null)], [useForm({ defaultValues })]. *)
Definition initial_state : State :=
  mkState true None (mkForm defaultValues no_errors) [].

(** The effect runs: [getProfile()]. *)
Definition effect (session : Session) (m : page) : page :=
  exec (getProfile session) m.

(** The page at its first render: nothing called yet. *)
Definition first_render : page := mkMachine initial_state [] [].

(** The page is mounted for [session]: first render, then the effect. *)
Definition mount (session : Session) : page :=
  effect session first_render.

(** The user edits an input of the form; the edit touches the form object
    only, and needs the form on the page. *)
Definition edit (session : Session) (f : FormState) (m : page) : page :=
  match form_view (render session (ui m)) with
  | Some _ =>
      mkMachine (mkState (loading (ui m)) (error (ui m)) f (toasts (ui m)))
                (pending m) (issued m)
  | None => m
  end.

(** The user submits the form.  That needs the form on the page and its
    submit button enabled; then [form.handleSubmit(onSubmit)] runs. *)
Definition submit (is_url : string -> bool) (invalid_url : string)
           (session : Session) (now : string) (m : page) : page :=
  match form_view (render session (ui m)) with
  | Some shown =>
      if submit_disabled shown then m
      else exec (handleSubmit is_url invalid_url (onSubmit session now)) m
  | None => m
  end.

(** The user clicks "Sign Out", a button of the form. *)
Definition click_sign_out (session : Session) (m : page) : page :=
  match form_view (render session (ui m)) with
  | Some _ => exec handleSignOut m
  | None => m
  end.

(** A resolved response without error. *)
Definition succeeded (r : settled Response.t) : bool :=
  match r with
  | Fulfilled {| Response.error := None |} => true
  | _ => false
  end.

(** The value a failed call leaves in the handler's [catch]. *)
Definition failure (r : settled Response.t) : option thrown :=
  match r with
  | Fulfilled res => Response.error res
  | Rejected e => Some e
  end.

(** The row a resolved response carries. *)
Definition payload (r : settled Response.t) : option ProfileRow :=
  match r with
  | Fulfilled res => Response.data res
  | Rejected _ => None
  end.

End Account.

(** ** What the properties are stated with *)

(** The text a [catch] clause of the pages reports for a thrown value:
    [error instanceof Error ? error.message : 'An error occurred']. *)
Definition reported (e : thrown) : string :=
  match e with
  | ErrorInstance message => message
  | NotAnError _ => "An error occurred"
  end.

(** The two toasts of the sign-in page. *)
Definition sent_toast : Toast :=
  {| variant := DefaultVariant;
     title := "Magic link sent!";
     description := "Check your email for the login link." |}.

Definition error_toast (e : thrown) : Toast :=
  {| variant := Destructive; title := "Error"; description := reported e |}.

(** The toast of a saved profile. *)
Definition updated_toast : Toast :=
  {| variant := DefaultVariant;
     title := "Profile updated";
     description := "Your profile has been successfully updated." |}.

(** The object [onSubmit] of the profile page passes to [upsert]. *)
Definition updates (session : Account.Session) (now : string) (v : Account.Values)
  : Account.object :=
  [("id", Account.id (Account.user session));
   ("username", Account.username v);
   ("website", Account.website v);
   ("avatar_url", Account.avatar_url v);
   ("updated_at", now)].

(** The sign-in page has a request in flight exactly while [loading] is
    set, and then it is the one request of [onSubmit]. *)
Definition one_in_flight (m : Auth.page) : Prop :=
  if Auth.loading (ui m)
  then exists v, pending m = pending (exec (Auth.onSubmit v) (mkMachine (ui m) [] []))
  else pending m = [].

Fixpoint any_char (p : Ascii.ascii -> bool) (s : string) : bool :=
  match s with
  | EmptyString => false
  | String c s' => p c || any_char p s'
  end.

Fixpoint all_chars (p : Ascii.ascii -> bool) (s : string) : bool :=
  match s with
  | EmptyString => true
  | String c s' => p c && all_chars p s'
  end.

(** The parts of [s] before and after the first [c]. *)
Fixpoint split_at (c : Ascii.ascii) (s : string) : option (string * string) :=
  match s with
  | EmptyString => None
  | String d s' =>
      if Ascii.eqb d c then Some ("", s')
      else match split_at c s' with
           | Some (a, b) => Some (String d a, b)
           | None => None
           end
  end.

Definition is_space (c : Ascii.ascii) : bool :=
  let n := Ascii.nat_of_ascii c in
  ((n =? 32) || (n =? 9) || (n =? 10) || (n =? 13))%nat.

Definition is_letter (c : Ascii.ascii) : bool :=
  let n := Ascii.nat_of_ascii c in
  (((65 <=? n) && (n <=? 90)) || ((97 <=? n) && (n <=? 122)))%nat.

(** Modelled from the spec: the email check of zod, which is not part of
    the repository.  "local-part "@" domain, domain containing a dot, no
    embedded whitespace". *)
Definition email_syntax (s : string) : bool :=
  negb (any_char is_space s) &&
  match split_at "@"%char s with
  | Some (local, domain) =>
      negb (local =? "") &&
      negb (any_char (Ascii.eqb "@"%char) domain) &&
      match split_at "."%char domain with
      | Some (label, rest) => negb (label =? "") && negb (rest =? "")
      | None => false
      end
  | None => false
  end.

(** Modelled from the spec: the URL check of zod, which is not part of the
    repository.  "a syntactically valid absolute URL": a scheme of letters,
    "://", and a non-empty rest, without whitespace. *)
Definition url_syntax (s : string) : bool :=
  negb (any_char is_space s) &&
  match split_at ":"%char s with
  | Some (scheme, rest) =>
      negb (scheme =? "") && all_chars is_letter scheme &&
      match rest with
      | String "/"%char (String "/"%char (String _ _)) => true
      | _ => false
      end
  | None => false
  end.

(** A stand-in for the browser's check of the email input in the examples
    below: the empty value passes (the input is not required), any other
    value passes when [email_syntax] takes it. *)
Definition input_check (s : string) : bool :=
  (s =? "") || email_syntax s.

(** The rows of the table [profiles], each with its [id]. *)
Definition Table : Type := list (string * Account.ProfileRow).

(** [.eq('id', id)]: the rows whose [id] is [id]. *)
Definition eq_id (id : string) (table : Table) : list Account.ProfileRow :=
  map snd (filter (fun entry => fst entry =? id) table).

(** The contract of the store client for a query that ends in [.single()];
    the client is not part of the repository.  The result has to be exactly
    one row, which is then the [data]; any other result, no row among them,
    is answered with an error and no [data].  [not_one_row] is the error
    value the client gives. *)
Definition single (not_one_row : thrown) (rows : list Account.ProfileRow)
  : Account.Response.t :=
  match rows with
  | [row] => {| Account.Response.data := Some row; Account.Response.error := None |}
  | _ => {| Account.Response.data := None; Account.Response.error := Some not_one_row |}
  end.

(** What the read of [getProfile] for [id] resolves to on [table]. *)
Definition read (not_one_row : thrown) (table : Table) (id : string)
  : settled Account.Response.t :=
  Fulfilled (single not_one_row (eq_id id table)).

(** Inputs the examples below run on. *)
Definition alice : Account.Session :=
  {| Account.user := {| Account.id := "u-1"; Account.email := "alice@example.com" |} |}.

Definition typed (s : string) : Auth.page :=
  Auth.edit (Auth.mkForm {| Auth.email := s |} Auth.no_errors) Auth.initial.

(** A read that resolved with neither an error nor a row. *)
Definition no_record : settled Account.Response.t :=
  Fulfilled {| Account.Response.data := None; Account.Response.error := None |}.

Definition fill_in (session : Account.Session) (v : Account.Values) (m : Account.page)
  : Account.page :=
  Account.edit session (Account.mkForm v Account.no_errors) m.

(** The profile page of [alice] after its read resolved with neither an
    error nor a row: the empty form is on the page. *)
Definition loaded : Account.page := settle 0 no_record (Account.mount alice).

(** ** Runs of the two pages *)

(** Every request of the sign-in page is either still in flight or has
    been answered by one toast. *)
Definition accounted (m : Auth.page) : Prop :=
  one_in_flight m /\
  length (issued m) = length (Auth.toasts (ui m)) + length (pending m).

(** The toast of [handleSignOut]. *)
Definition signed_out_toast : Toast :=
  {| variant := DefaultVariant;
     title := "Signed out";
     description := "You have been successfully signed out." |}.

(** The user types in the two inputs the profile form has, "username" and
    "website"; the form object keeps its [avatar_url], for which the page
    has no input. *)
Definition type_fields (session : Account.Session) (u w : string) (m : Account.page)
  : Account.page :=
  Account.edit session
    (Account.mkForm
       {| Account.username := u;
          Account.website := w;
          Account.avatar_url := Account.avatar_url (Account.values (Account.form (ui m))) |}
       (Account.errors (Account.form (ui m))))
    m.

(** User actions and collaborator answers that drive the profile page once
    it is mounted. *)
Inductive profile_event : Type :=
| EditForm (f : Account.FormState)
| SubmitForm (now : string)
| ClickSignOut
| SettleCall (i : nat) (r : settled Account.Response.t).

Definition profile_step (is_url : string -> bool) (invalid_url : string)
           (session : Account.Session) (e : profile_event) (m : Account.page)
  : Account.page :=
  match e with
  | EditForm f => Account.edit session f m
  | SubmitForm now => Account.submit is_url invalid_url session now m
  | ClickSignOut => Account.click_sign_out session m
  | SettleCall i r => settle i r m
  end.

Definition profile_run (is_url : string -> bool) (invalid_url : string)
           (session : Account.Session) (es : list profile_event) (m : Account.page)
  : Account.page :=
  fold_left (fun m e => profile_step is_url invalid_url session e m) es m.

(** The calls that read or write the profile, as opposed to the sign-out. *)
Definition data_call (q : Account.request) : bool :=
  match q with
  | Account.signOut => false
  | _ => true
  end.

Definition is_data_call
           (entry : Account.request * (settled Account.Response.t -> Account.handler_body))
  : bool :=
  data_call (fst entry).

(** What the rest of a suspended handler of the profile page does when its
    call settles: it issues nothing more, and it unsets [loading] when the
    call was a read or a write of the profile and leaves it otherwise. *)
Definition settles_quietly
           (entry : Account.request * (settled Account.Response.t -> Account.handler_body))
  : Prop :=
  forall (r : settled Account.Response.t) (m : Account.page),
    pending (exec (snd entry r) m) = pending m /\
    issued (exec (snd entry r) m) = issued m /\
    Account.loading (ui (exec (snd entry r) m))
    = (if data_call (fst entry) then false else Account.loading (ui m)).

(** The profile page has a read or write of the profile in flight exactly
    while [loading] is set, and then only one. *)
Definition steady (m : Account.page) : Prop :=
  Forall settles_quietly (pending m) /\
  length (filter is_data_call (pending m))
  = if Account.loading (ui m) then 1 else 0.

(** * Properties *)

(** ** Pending calls *)

Lemma nth_error_snoc {A : Type} (l : list A) (x : A) :
  nth_error (l ++ [x]) (length l) = Some x.
Proof.
  induction l as [|y l IH]; simpl; [reflexivity | exact IH].
Qed.

Lemma remove_nth_snoc {A : Type} (l : list A) (x : A) :
  remove_nth (length l) (l ++ [x]) = l.
Proof.
  unfold remove_nth.
  induction l as [|y l IH]; simpl; [reflexivity | now f_equal].
Qed.

(** The call issued last settles: the handler that awaits it resumes in the
    component state of that moment, the other pending calls stay. *)
Lemma settle_last {St Req Resp : Type}
      (s : St) (l : list (Req * (settled Resp -> prog St Req Resp unit)))
      (q : Req) (k : settled Resp -> prog St Req Resp unit)
      (log : list Req) (r : settled Resp) :
  settle (length l) r (mkMachine s (l ++ [(q, k)]) log)
  = exec (k r) (mkMachine s l log).
Proof.
  unfold settle; simpl.
  rewrite nth_error_snoc, remove_nth_snoc.
  reflexivity.
Qed.

(** A settlement that names no pending call changes nothing. *)
Lemma settle_nothing {St Req Resp : Type} (m : machine St Req Resp)
      (i : nat) (r : settled Resp) :
  length (pending m) <= i -> settle i r m = m.
Proof.
  intros Hi. unfold settle.
  apply nth_error_None in Hi. now rewrite Hi.
Qed.

(** ** The sign-in page *)
Module AuthProps.
Import Auth.

(** The whole of [onSubmit]: one call is issued, and when it settles the
    page is left in one of two states. *)
Lemma onSubmit_settled (v : Values) (m : page) (r : settled response) :
  settle (length (pending m)) r (exec (onSubmit v) m)
  = mkMachine
      match failure r with
      | None => mkState false true (mkForm defaultValues no_errors)
                        (toasts (ui m) ++ [sent_toast])
      | Some e => mkState false false (form (ui m))
                          (toasts (ui m) ++ [error_toast e])
      end
      (pending m) (issued m ++ [signInWithOtp (email v)]).
Proof.
  destruct m as [st waiting log]; simpl.
  rewrite settle_last.
  destruct r as [[[e|]]|e]; simpl; try destruct e; reflexivity.
Qed.

(** [form.handleSubmit(onSubmit)] on an enabled form with an address that
    the browser lets through and the schema accepts: the errors are dropped
    and [onSubmit] runs on the address. *)
Lemma submit_valid (input_valid is_email : string -> bool) (m : page) :
  loading (ui m) = false ->
  input_valid (email (values (form (ui m)))) = true ->
  is_email (email (values (form (ui m)))) = true ->
  submit input_valid is_email m
  = exec (onSubmit (values (form (ui m))))
         (mkMachine (mkState false (showSuccess (ui m))
                             (mkForm (values (form (ui m))) no_errors)
                             (toasts (ui m)))
                    (pending m) (issued m)).
Proof.
  destruct m as [[busy shown [[address] errs] raised] waiting log]; simpl.
  intros -> Hlet Hvalid.
  unfold submit, handleSubmit, formSchema; simpl.
  now rewrite Hlet, Hvalid.
Qed.

(** The same form with an address that the browser lets through and the
    schema refuses: only the message of the email field changes. *)
Lemma submit_invalid (input_valid is_email : string -> bool) (m : page) :
  loading (ui m) = false ->
  input_valid (email (values (form (ui m)))) = true ->
  is_email (email (values (form (ui m)))) = false ->
  submit input_valid is_email m
  = mkMachine (mkState false (showSuccess (ui m))
                       (mkForm (values (form (ui m)))
                               {| email_error := Some "Please enter a valid email address." |})
                       (toasts (ui m)))
              (pending m) (issued m).
Proof.
  destruct m as [[busy shown [[address] errs] raised] waiting log]; simpl.
  intros -> Hlet Hbad.
  unfold submit, handleSubmit, formSchema; simpl.
  now rewrite Hlet, Hbad.
Qed.

(** The same form with an address that the browser reports: nothing
    reaches the page. *)
Lemma submit_reported (input_valid is_email : string -> bool) (m : page) :
  input_valid (email (values (form (ui m)))) = false ->
  submit input_valid is_email m = m.
Proof.
  intros Hstop. unfold submit. rewrite Hstop.
  now destruct (submit_disabled (render (ui m))).
Qed.

Lemma submit_disabled_noop (input_valid is_email : string -> bool) (m : page) :
  loading (ui m) = true -> submit input_valid is_email m = m.
Proof.
  intros Hbusy. unfold submit, render; simpl. now rewrite Hbusy.
Qed.

(** C3: a submission of the sign-in form while its request is pending
    ([loading] is set, the submit button is disabled) is a no-op: the page
    state, the pending calls and the log of issued [signInWithOtp] calls are
    all left as they are. *)
Theorem submit_while_pending_is_noop (input_valid is_email : string -> bool)
        (m : page) :
  loading (ui m) = true ->
  submit input_valid is_email m = m /\
  issued (submit input_valid is_email m) = issued m /\
  ui (submit input_valid is_email m) = ui m.
Proof.
  intros Hbusy.
  rewrite (submit_disabled_noop input_valid is_email m Hbusy).
  repeat split.
Qed.

Lemma submit_while_pending_is_noop_witness :
  let m := submit input_check email_syntax (typed "a@b.co") in
  loading (ui m) = true /\
  (submit input_check email_syntax m = m /\
   issued (submit input_check email_syntax m) = issued m /\
   ui (submit input_check email_syntax m) = ui m).
Proof.
  split; [reflexivity | apply submit_while_pending_is_noop; reflexivity].
Defined.

(** C4: for every address that the browser's check of the email input or
    the schema's email check refuses, a submission of the sign-in form
    issues no [signInWithOtp] call and leaves [loading], [showSuccess], the
    toasts and the typed address as they were.  On the idle page ([loading]
    unset) the address gets its feedback at the field: when the browser
    refuses it, the browser reports the input and nothing of the page
    changes; when the browser lets it through, the schema's message is
    stored for the email field and shown under the input. *)
Theorem invalid_email_never_sent (input_valid is_email : string -> bool) (m : page) :
  input_valid (email (values (form (ui m))))
  && is_email (email (values (form (ui m)))) = false ->
  let m' := submit input_valid is_email m in
  issued m' = issued m /\
  pending m' = pending m /\
  loading (ui m') = loading (ui m) /\
  showSuccess (ui m') = showSuccess (ui m) /\
  toasts (ui m') = toasts (ui m) /\
  values (form (ui m')) = values (form (ui m)) /\
  (loading (ui m) = false ->
   if input_valid (email (values (form (ui m))))
   then email_message (render (ui m')) = Some "Please enter a valid email address."
   else browser_reports input_valid m = true /\ m' = m).
Proof.
  intros Hbad m'; subst m'.
  destruct (loading (ui m)) eqn:Hbusy.
  - rewrite (submit_disabled_noop input_valid is_email m Hbusy).
    rewrite Hbusy. repeat split. discriminate.
  - destruct (input_valid (email (values (form (ui m))))) eqn:Hlet.
    + simpl in Hbad.
      rewrite (submit_invalid input_valid is_email m Hbusy Hlet Hbad); simpl.
      repeat split.
    + rewrite (submit_reported input_valid is_email m Hlet).
      rewrite Hbusy. repeat split.
      unfold browser_reports, render; simpl. now rewrite Hbusy, Hlet.
Qed.

Lemma invalid_email_never_sent_witness :
  let stopped := typed "not-an-email" in
  let refused := typed "" in
  (input_check "not-an-email" && email_syntax "not-an-email" = false /\
   issued (submit input_check email_syntax stopped) = issued stopped /\
   browser_reports input_check stopped = true /\
   submit input_check email_syntax stopped = stopped) /\
  (input_check "" && email_syntax "" = false /\
   issued (submit input_check email_syntax refused) = issued refused /\
   email_message (render (ui (submit input_check email_syntax refused)))
   = Some "Please enter a valid email address.").
Proof.
  split.
  - destruct (invalid_email_never_sent input_check email_syntax
                (typed "not-an-email") eq_refl)
      as (Hissued & _ & _ & _ & _ & _ & Hfeedback).
    destruct (Hfeedback eq_refl) as [Hreports Hsame].
    split; [reflexivity|]. split; [exact Hissued|].
    split; [exact Hreports | exact Hsame].
  - destruct (invalid_email_never_sent input_check email_syntax
                (typed "") eq_refl)
      as (Hissued & _ & _ & _ & _ & _ & Hfeedback).
    split; [reflexivity|]. split; [exact Hissued | exact (Hfeedback eq_refl)].
Defined.

(** C6: for every address that passes both the browser's check of the email
    input and the schema's email check, one submission of the idle sign-in
    form issues exactly one [signInWithOtp] call, for that address, and none
    when the call settles; after that [showSuccess] is set iff the call
    succeeded, the input is cleared on success and keeps the address on
    failure. *)
Theorem valid_email_one_request (input_valid is_email : string -> bool) (m : page)
        (r : settled response) :
  loading (ui m) = false ->
  input_valid (email (values (form (ui m)))) = true ->
  is_email (email (values (form (ui m)))) = true ->
  let address := email (values (form (ui m))) in
  let m1 := submit input_valid is_email m in
  let m2 := settle (length (pending m)) r m1 in
  issued m1 = issued m ++ [signInWithOtp address] /\
  issued m2 = issued m1 /\
  pending m2 = pending m /\
  (showSuccess (ui m2) = true <-> succeeded r = true) /\
  success_alert (render (ui m2)) = succeeded r /\
  email_input (render (ui m2)) = (if succeeded r then "" else address).
Proof.
  intros Hidle Hlet Hvalid address m1 m2; subst address m1 m2.
  rewrite (submit_valid input_valid is_email m Hidle Hlet Hvalid).
  set (m0 := mkMachine _ (pending m) (issued m)).
  change (length (pending m)) with (length (pending m0)).
  rewrite onSubmit_settled.
  split; [reflexivity|].
  destruct r as [[[e|]]|e]; simpl; repeat split; congruence.
Qed.

Lemma valid_email_one_request_witness :
  let m := typed "a@b.co" in
  let r := Fulfilled {| error := None |} in
  let m1 := submit input_check email_syntax m in
  let m2 := settle (length (pending m)) r m1 in
  loading (ui m) = false /\
  input_check (email (values (form (ui m)))) = true /\
  email_syntax (email (values (form (ui m)))) = true /\
  issued m1 = issued m ++ [signInWithOtp "a@b.co"] /\
  issued m2 = issued m1 /\
  pending m2 = pending m /\
  (showSuccess (ui m2) = true <-> succeeded r = true) /\
  success_alert (render (ui m2)) = succeeded r /\
  email_input (render (ui m2)) = (if succeeded r then "" else "a@b.co").
Proof.
  split; [reflexivity|]. split; [reflexivity|]. split; [reflexivity|].
  apply (valid_email_one_request input_check email_syntax (typed "a@b.co"));
    reflexivity.
Defined.

(** [onSubmit] itself carries no guard: called on a page that is already
    loading it would issue its request all the same.  The guard of the page
    is the disabled submit button. *)
Lemma onSubmit_unguarded (v : Values) (m : page) :
  issued (exec (onSubmit v) m) = issued m ++ [signInWithOtp (email v)].
Proof.
  reflexivity.
Qed.

(** *** Runs of the page *)

Lemma one_in_flight_step (input_valid is_email : string -> bool) (e : event)
      (m : page) :
  one_in_flight m -> one_in_flight (step input_valid is_email e m).
Proof.
  unfold one_in_flight.
  destruct e as [f | | i r]; simpl.
  - destruct (loading (ui m)); simpl; auto.
  - destruct (loading (ui m)) eqn:Hbusy.
    + rewrite (submit_disabled_noop input_valid is_email m Hbusy), Hbusy. auto.
    + intros Hnone.
      destruct (input_valid (email (values (form (ui m))))) eqn:Hlet.
      * destruct (is_email (email (values (form (ui m))))) eqn:Hvalid.
        -- rewrite (submit_valid input_valid is_email m Hbusy Hlet Hvalid); simpl.
           rewrite Hnone. now exists (values (form (ui m))).
        -- rewrite (submit_invalid input_valid is_email m Hbusy Hlet Hvalid); simpl.
           exact Hnone.
      * rewrite (submit_reported input_valid is_email m Hlet), Hbusy.
        exact Hnone.
  - destruct m as [st waiting log]; simpl.
    destruct (loading st) eqn:Hbusy.
    + intros [v Hone]. simpl in Hone. subst waiting.
      destruct i as [|i].
      * unfold settle; simpl.
        destruct r as [[[e|]]|e]; reflexivity.
      * rewrite settle_nothing by (simpl; lia).
        simpl. rewrite Hbusy. now exists v.
    + intros ->. rewrite settle_nothing by (simpl; lia).
      simpl. now rewrite Hbusy.
Qed.

Lemma one_in_flight_run (input_valid is_email : string -> bool) (es : list event)
      (m : page) :
  one_in_flight m -> one_in_flight (run input_valid is_email es m).
Proof.
  revert m.
  induction es as [|e es IH]; intros m Hm; simpl.
  - exact Hm.
  - apply IH. now apply one_in_flight_step.
Qed.

(** Whatever the user and the collaborator do, the page never has more
    than one request in flight, and it has one exactly while [loading] is
    set. *)
Lemma at_most_one_request (input_valid is_email : string -> bool)
      (es : list event) :
  let m := run input_valid is_email es initial in
  length (pending m) = if loading (ui m) then 1 else 0.
Proof.
  intros m.
  assert (Hinv : one_in_flight m)
    by (apply one_in_flight_run; reflexivity).
  unfold one_in_flight in Hinv.
  destruct (loading (ui m)).
  - destruct Hinv as [v ->]. reflexivity.
  - now rewrite Hinv.
Qed.

End AuthProps.

(** ** The profile page *)
Module AccountProps.
Import Account.

(** The whole of [getProfile]: one read is issued, and when it settles the
    page has left [loading], with the error of a failed read, the row of a
    successful one in the form, or the form as it was when there is no row. *)
Lemma getProfile_settled (session : Session) (m : page) (r : settled Response.t) :
  settle (length (pending m)) r (effect session m)
  = mkMachine
      match failure r, payload r with
      | Some e, _ => mkState false (Some (reported e)) (form (ui m)) (toasts (ui m))
      | None, Some data =>
          mkState false None
                  (mkForm {| username := or_empty (data_username data);
                             website := or_empty (data_website data);
                             avatar_url := or_empty (data_avatar_url data) |}
                          no_errors)
                  (toasts (ui m))
      | None, None => mkState false None (form (ui m)) (toasts (ui m))
      end
      (pending m)
      (issued m ++ [select_single "profiles" "username, website, avatar_url"
                                  (id (user session))]).
Proof.
  destruct m as [st waiting log]; unfold effect; simpl.
  rewrite settle_last.
  destruct r as [[[data|] [e|]]|e]; simpl; try destruct e; reflexivity.
Qed.

(** The whole of [onSubmit]: one [upsert] of the record is issued, and when
    it settles the page has left [loading], with a toast or with the error;
    the form is not touched. *)
Lemma save_settled (session : Session) (now : string) (v : Values)
      (m : page) (r : settled Response.t) :
  settle (length (pending m)) r (exec (onSubmit session now v) m)
  = mkMachine
      match failure r with
      | None => mkState false None (form (ui m)) (toasts (ui m) ++ [updated_toast])
      | Some e => mkState false (Some (reported e)) (form (ui m)) (toasts (ui m))
      end
      (pending m)
      (issued m ++ [upsert "profiles" (updates session now v)]).
Proof.
  destruct m as [st waiting log]; simpl.
  rewrite settle_last.
  destruct r as [[data [e|]]|e]; simpl; try destruct e; reflexivity.
Qed.


(** *** The schema *)

Lemma min2_accepts (s : string) : 2 <= String.length s -> min2 s = None.
Proof.
  intros Hlen. unfold min2.
  destruct (Nat.ltb_spec (String.length s) 2); [lia | reflexivity].
Qed.

Lemma min2_refuses (s : string) :
  String.length s < 2 -> min2 s = Some "Username must be at least 2 characters.".
Proof.
  intros Hlen. unfold min2.
  destruct (Nat.ltb_spec (String.length s) 2); [reflexivity | lia].
Qed.

Lemma url_or_empty_refuses (is_url : string -> bool) (message s : string) :
  s <> "" -> is_url s = false -> url_or_empty is_url message s = Some message.
Proof.
  intros Hfilled Hbad. unfold url_or_empty. rewrite Hbad.
  destruct (String.eqb_spec s ""); [contradiction | reflexivity].
Qed.

Lemma url_or_empty_empty (is_url : string -> bool) (message : string) :
  url_or_empty is_url message "" = None.
Proof.
  unfold url_or_empty. now destruct (is_url "").
Qed.

Lemma formSchema_valid (is_url : string -> bool) (invalid_url : string) (v : Values) :
  issues is_url invalid_url v = no_errors ->
  formSchema is_url invalid_url v = inl v.
Proof.
  intros Hnone. unfold formSchema. rewrite Hnone.
  now destruct v.
Qed.

Lemma formSchema_invalid (is_url : string -> bool) (invalid_url : string) (v : Values) :
  issues is_url invalid_url v <> no_errors ->
  formSchema is_url invalid_url v = inr (issues is_url invalid_url v).
Proof.
  intros Hsome. unfold formSchema.
  destruct (issues is_url invalid_url v) as [[a|] [b|] [c|]];
    try reflexivity.
  now elim Hsome.
Qed.

(** [form.handleSubmit(onSubmit)] on the form when it is on the page. *)
Lemma save_valid (is_url : string -> bool) (invalid_url : string)
      (session : Session) (now : string) (m : page) :
  loading (ui m) = false ->
  issues is_url invalid_url (values (form (ui m))) = no_errors ->
  submit is_url invalid_url session now m
  = exec (onSubmit session now (values (form (ui m))))
         (mkMachine (mkState false (error (ui m))
                             (mkForm (values (form (ui m))) no_errors)
                             (toasts (ui m)))
                    (pending m) (issued m)).
Proof.
  destruct m as [[busy err [v errs] raised] waiting log]; simpl.
  intros -> Hnone.
  unfold submit, handleSubmit; simpl.
  now rewrite (formSchema_valid _ _ _ Hnone).
Qed.

Lemma save_invalid (is_url : string -> bool) (invalid_url : string)
      (session : Session) (now : string) (m : page) :
  loading (ui m) = false ->
  issues is_url invalid_url (values (form (ui m))) <> no_errors ->
  submit is_url invalid_url session now m
  = mkMachine (mkState false (error (ui m))
                       (mkForm (values (form (ui m)))
                               (issues is_url invalid_url (values (form (ui m)))))
                       (toasts (ui m)))
              (pending m) (issued m).
Proof.
  destruct m as [[busy err [v errs] raised] waiting log]; simpl.
  intros -> Hsome.
  unfold submit, handleSubmit; simpl.
  now rewrite (formSchema_invalid _ _ _ Hsome).
Qed.

(** While [loading] is set the form is not on the page: nothing to submit. *)
Lemma submit_hidden_noop (is_url : string -> bool) (invalid_url : string)
      (session : Session) (now : string) (m : page) :
  loading (ui m) = true -> submit is_url invalid_url session now m = m.
Proof.
  intros Hbusy. unfold submit, render; simpl. now rewrite Hbusy.
Qed.


(** *** Loading the profile *)

(** C1, as stated, fails: the read of a user without a stored row, a
    query that ends in [.single()], resolves with an error, and the load
    of the freshly mounted page ends with that error reported, not without
    error. *)
Lemma load_without_record_counterexample :
  ~ (forall (session : Session) (table : Table) (not_one_row : thrown),
       eq_id (id (user session)) table = [] ->
       let m' := settle 0 (read not_one_row table (id (user session)))
                        (mount session) in
       values (form (ui m')) = defaultValues /\
       loading (ui m') = false /\
       error (ui m') = None).
Proof.
  intros Hclaim.
  destruct (Hclaim alice []
              (NotAnError (Some "JSON object requested, multiple (or no) rows returned"))
              eq_refl)
    as (_ & _ & Herror).
  discriminate Herror.
Qed.

(** C1, amended: for every session whose user id has no row in the table,
    the read of [getProfile] resolves with the error of [.single()], and
    the load of the freshly mounted page issues that one read and ends with
    [loading] unset and [error] set to the reported message; the three
    fields hold their defaults, which the load leaves untouched, and the
    form is on the page under the alert (no alert when the message is the
    empty string).  A read that resolves with neither an error nor a row
    does end without error, the fields untouched as well. *)
Theorem load_without_record (session : Session) (table : Table)
        (not_one_row : thrown) :
  eq_id (id (user session)) table = [] ->
  let m' := settle 0 (read not_one_row table (id (user session))) (mount session) in
  let quiet := settle 0 no_record (mount session) in
  (issued m'
   = [select_single "profiles" "username, website, avatar_url" (id (user session))] /\
   pending m' = [] /\
   loading (ui m') = false /\
   error (ui m') = Some (reported not_one_row) /\
   values (form (ui m')) = defaultValues /\
   render session (ui m')
   = {| alert := if truthy (reported not_one_row)
                 then Some (reported not_one_row) else None;
        skeleton := false;
        form_view :=
          Some {| username_input := "";
                  username_message := None;
                  website_input := "";
                  website_message := None;
                  email_input := email (user session);
                  submit_disabled := false;
                  submit_label := "Update Profile" |} |}) /\
  (loading (ui quiet) = false /\
   error (ui quiet) = None /\
   values (form (ui quiet)) = defaultValues).
Proof.
  intros Hmissing m' quiet; subst m' quiet.
  unfold read. rewrite Hmissing.
  change 0 with (length (pending first_render)).
  unfold mount.
  rewrite !getProfile_settled; simpl.
  repeat split.
Qed.

Lemma load_without_record_witness :
  let not_one_row :=
    NotAnError (Some "JSON object requested, multiple (or no) rows returned") in
  let table : Table :=
    [("u-2", {| data_username := Some "Bob"; data_website := None;
                data_avatar_url := None |})] in
  let m' := settle 0 (read not_one_row table "u-1") (mount alice) in
  eq_id (id (user alice)) table = [] /\
  loading (ui m') = false /\
  error (ui m') = Some "An error occurred" /\
  values (form (ui m')) = defaultValues.
Proof.
  split; [reflexivity|].
  destruct (load_without_record alice
              [("u-2", {| data_username := Some "Bob"; data_website := None;
                          data_avatar_url := None |})]
              (NotAnError (Some "JSON object requested, multiple (or no) rows returned"))
              eq_refl)
    as ((_ & _ & Hloading & Herror & Hvalues & _) & _).
  exact (conj Hloading (conj Herror Hvalues)).
Defined.

(** A load without a row does not write the form: it keeps whatever the
    form held when the effect ran again. *)
Lemma load_without_record_keeps_form (session : Session) (m : page) :
  form (ui (settle (length (pending m)) no_record (effect session m))) = form (ui m).
Proof.
  now rewrite getProfile_settled.
Qed.

(** A load with a row writes the row to the form, null columns as empty
    strings. *)
Lemma load_with_record (session : Session) (m : page) (data : ProfileRow) :
  let r := Fulfilled {| Response.data := Some data; Response.error := None |} in
  let m' := settle (length (pending m)) r (effect session m) in
  values (form (ui m'))
  = {| username := or_empty (data_username data);
       website := or_empty (data_website data);
       avatar_url := or_empty (data_avatar_url data) |} /\
  loading (ui m') = false /\ error (ui m') = None.
Proof.
  intros r m'; subst r m'.
  rewrite getProfile_settled; simpl. repeat split.
Qed.

(** The form is on the page exactly when [loading] is unset. *)
Lemma form_gate (session : Session) (st : State) :
  form_view (render session st) = None <-> loading st = true.
Proof.
  unfold render; simpl.
  destruct (loading st); split; intros H; try reflexivity; discriminate.
Qed.

(** C2, as stated, fails: after a load that ended in failure the form is on
    the page. *)
Lemma form_hidden_after_failed_load_counterexample :
  ~ (forall (session : Session) (e : thrown),
       form_view (render session (ui (settle 0 (Rejected e) (mount session)))) = None).
Proof.
  intros Hhidden.
  specialize (Hhidden alice (ErrorInstance "Failed to fetch")).
  discriminate Hhidden.
Qed.

(** C2, amended: after every load that ends in failure the page shows the
    failure message in the alert (unless the message is the empty string)
    together with the form, whose inputs hold the values from before the
    load and whose submit button is enabled; the loading skeleton stands in
    for the form exactly while [loading] is set. *)
Theorem failed_load_shows_alert_and_form (session : Session) (m : page)
        (r : settled Response.t) (e : thrown) :
  failure r = Some e ->
  let m' := settle (length (pending m)) r (effect session m) in
  error (ui m') = Some (reported e) /\
  alert (render session (ui m'))
  = (if truthy (reported e) then Some (reported e) else None) /\
  skeleton (render session (ui m')) = false /\
  form_view (render session (ui m'))
  = Some {| username_input := username (values (form (ui m)));
            username_message := username_error (errors (form (ui m)));
            website_input := website (values (form (ui m)));
            website_message := website_error (errors (form (ui m)));
            email_input := email (user session);
            submit_disabled := false;
            submit_label := "Update Profile" |} /\
  (forall st, skeleton (render session st) = true <-> form_view (render session st) = None) /\
  (forall st, form_view (render session st) = None <-> loading st = true).
Proof.
  intros Hfailed m'; subst m'.
  rewrite getProfile_settled, Hfailed; simpl.
  repeat split; try (apply form_gate; assumption);
    unfold render; simpl; destruct (loading st); congruence.
Qed.

Lemma failed_load_shows_alert_and_form_witness :
  let r : settled Response.t := Rejected (ErrorInstance "Failed to fetch") in
  let m' := settle 0 r (mount alice) in
  failure r = Some (ErrorInstance "Failed to fetch") /\
  alert (render alice (ui m')) = Some "Failed to fetch" /\
  skeleton (render alice (ui m')) = false /\
  option_map submit_disabled (form_view (render alice (ui m'))) = Some false.
Proof.
  split; [reflexivity|].
  destruct (failed_load_shows_alert_and_form
              alice first_render
              (Rejected (ErrorInstance "Failed to fetch"))
              (ErrorInstance "Failed to fetch") eq_refl)
    as (_ & Halert & Hskeleton & Hform & _).
  split; [exact Halert|]. split; [exact Hskeleton|].
  exact (f_equal (option_map submit_disabled) Hform).
Defined.


(** *** Saving the profile *)

(** C5: on the form as it is on the page, a submission whose username is
    shorter than 2, or whose website or avatar URL is neither empty nor
    accepted by the URL check, issues no call and changes nothing but the
    form's errors, which carry the message of each offending field; a
    submission with a username of length at least 2 and empty website and
    avatar URL is accepted: [loading] is set and one [upsert] of the record
    is issued. *)
Theorem profile_submit_validation (is_url : string -> bool) (invalid_url : string)
        (session : Session) (now : string) (m : page) :
  loading (ui m) = false ->
  let v := values (form (ui m)) in
  let m' := submit is_url invalid_url session now m in
  (String.length (username v) < 2 \/
   (website v <> "" /\ is_url (website v) = false) \/
   (avatar_url v <> "" /\ is_url (avatar_url v) = false) ->
   issued m' = issued m /\
   pending m' = pending m /\
   loading (ui m') = false /\
   error (ui m') = error (ui m) /\
   toasts (ui m') = toasts (ui m) /\
   values (form (ui m')) = v /\
   errors (form (ui m')) = issues is_url invalid_url v /\
   (String.length (username v) < 2 ->
    username_error (errors (form (ui m')))
    = Some "Username must be at least 2 characters.") /\
   (website v <> "" /\ is_url (website v) = false ->
    website_error (errors (form (ui m'))) = Some "Please enter a valid URL") /\
   (avatar_url v <> "" /\ is_url (avatar_url v) = false ->
    avatar_url_error (errors (form (ui m'))) = Some invalid_url))
  /\
  (2 <= String.length (username v) -> website v = "" -> avatar_url v = "" ->
   issued m' = issued m ++ [upsert "profiles" (updates session now v)] /\
   loading (ui m') = true).
Proof.
  intros Hshown v m'. split.
  - intros Hbad.
    assert (Hsome : issues is_url invalid_url v <> no_errors).
    { intros Hnone.
      destruct Hbad as [Hshort | [[Hfilled Hurl] | [Hfilled Hurl]]].
      - apply (f_equal username_error) in Hnone; simpl in Hnone.
        rewrite (min2_refuses _ Hshort) in Hnone. discriminate.
      - apply (f_equal website_error) in Hnone; simpl in Hnone.
        rewrite (url_or_empty_refuses _ _ _ Hfilled Hurl) in Hnone. discriminate.
      - apply (f_equal avatar_url_error) in Hnone; simpl in Hnone.
        rewrite (url_or_empty_refuses _ _ _ Hfilled Hurl) in Hnone. discriminate. }
    subst m'. rewrite (save_invalid _ _ session now m Hshown Hsome); simpl.
    repeat split.
    + intros Hshort. now apply min2_refuses.
    + intros [Hfilled Hurl]. now apply url_or_empty_refuses.
    + intros [Hfilled Hurl]. now apply url_or_empty_refuses.
  - intros Hlong Hwebsite Havatar.
    assert (Hnone : issues is_url invalid_url v = no_errors).
    { unfold issues. rewrite (min2_accepts _ Hlong), Hwebsite, Havatar.
      now rewrite !url_or_empty_empty. }
    subst m'. rewrite (save_valid _ _ session now m Hshown Hnone); simpl.
    split; reflexivity.
Qed.

Lemma profile_submit_validation_witness :
  let stamp := "2026-01-01T00:00:00.000Z" in
  let blank := submit url_syntax "Invalid url" alice stamp loaded in
  let ab := fill_in alice (mkValues "ab" "" "") loaded in
  loading (ui loaded) = false /\
  issued blank = issued loaded /\
  username_error (errors (form (ui blank)))
  = Some "Username must be at least 2 characters." /\
  issued (submit url_syntax "Invalid url" alice stamp ab)
  = issued ab ++ [upsert "profiles" (updates alice stamp (mkValues "ab" "" ""))].
Proof.
  split; [reflexivity|].
  destruct (profile_submit_validation url_syntax "Invalid url" alice
              "2026-01-01T00:00:00.000Z" loaded eq_refl) as [Hrefused _].
  assert (Hshort : String.length (username (values (form (ui loaded)))) < 2)
    by (simpl; lia).
  destruct (Hrefused (or_introl Hshort))
    as (Hissued & _ & _ & _ & _ & _ & _ & Hmessage & _).
  split; [exact Hissued|]. split; [exact (Hmessage Hshort)|].
  destruct (profile_submit_validation url_syntax "Invalid url" alice
              "2026-01-01T00:00:00.000Z"
              (fill_in alice (mkValues "ab" "" "") loaded) eq_refl)
    as [_ Haccepted].
  exact (proj1 (Haccepted (le_n 2) eq_refl eq_refl)).
Defined.

(** C7: when the [upsert] of an accepted submission fails, the page leaves
    [loading] with [error] set to the reported message, and the values of
    the three fields are those from before the submission. *)
Theorem failed_submit_keeps_fields (is_url : string -> bool) (invalid_url : string)
        (session : Session) (now : string) (m : page)
        (r : settled Response.t) (e : thrown) :
  loading (ui m) = false ->
  issues is_url invalid_url (values (form (ui m))) = no_errors ->
  failure r = Some e ->
  let m' := settle (length (pending m)) r (submit is_url invalid_url session now m) in
  loading (ui m') = false /\
  error (ui m') = Some (reported e) /\
  values (form (ui m')) = values (form (ui m)) /\
  option_map username_input (form_view (render session (ui m')))
  = Some (username (values (form (ui m)))) /\
  option_map website_input (form_view (render session (ui m')))
  = Some (website (values (form (ui m)))).
Proof.
  intros Hshown Hnone Hfailed m'; subst m'.
  rewrite (save_valid _ _ session now m Hshown Hnone).
  set (m0 := mkMachine _ (pending m) (issued m)).
  change (length (pending m)) with (length (pending m0)).
  rewrite save_settled, Hfailed; simpl.
  repeat split.
Qed.

Lemma failed_submit_keeps_fields_witness :
  let jo := fill_in alice (mkValues "Jo" "" "") loaded in
  let r : settled Response.t := Rejected (ErrorInstance "Failed to fetch") in
  let m' := settle 0 r (submit url_syntax "Invalid url" alice "2026-01-01T00:00:00.000Z" jo) in
  loading (ui jo) = false /\
  issues url_syntax "Invalid url" (values (form (ui jo))) = no_errors /\
  failure r = Some (ErrorInstance "Failed to fetch") /\
  loading (ui m') = false /\
  error (ui m') = Some "Failed to fetch" /\
  values (form (ui m')) = mkValues "Jo" "" "".
Proof.
  split; [reflexivity|]. split; [reflexivity|]. split; [reflexivity|].
  destruct (failed_submit_keeps_fields url_syntax "Invalid url" alice
              "2026-01-01T00:00:00.000Z"
              (fill_in alice (mkValues "Jo" "" "") loaded)
              (Rejected (ErrorInstance "Failed to fetch"))
              (ErrorInstance "Failed to fetch") eq_refl eq_refl eq_refl)
    as (Hloading & Herror & Hvalues & _).
  exact (conj Hloading (conj Herror Hvalues)).
Defined.

(** C10: the record of every accepted submission has exactly the
    properties [id] (the session's user id), [username], [website],
    [avatar_url] (the values of the form) and [updated_at], in that order;
    there is no [email] property, though the form shows the session's email
    in its disabled input. *)
Theorem upsert_record_fields (is_url : string -> bool) (invalid_url : string)
        (session : Session) (now : string) (m : page) :
  loading (ui m) = false ->
  issues is_url invalid_url (values (form (ui m))) = no_errors ->
  let v := values (form (ui m)) in
  exists row : object,
    issued (submit is_url invalid_url session now m)
    = issued m ++ [upsert "profiles" row] /\
    row = [("id", id (user session)); ("username", username v);
           ("website", website v); ("avatar_url", avatar_url v);
           ("updated_at", now)] /\
    keys row = ["id"; "username"; "website"; "avatar_url"; "updated_at"] /\
    ~ In "email" (keys row) /\
    option_map email_input (form_view (render session (ui m)))
    = Some (email (user session)).
Proof.
  intros Hshown Hnone v.
  exists (updates session now v).
  rewrite (save_valid _ _ session now m Hshown Hnone).
  repeat split.
  - simpl. intros [H|[H|[H|[H|[H|[]]]]]]; discriminate H.
  - unfold render; simpl. now rewrite Hshown.
Qed.

Lemma upsert_record_fields_witness :
  let jo := fill_in alice (mkValues "Jo" "" "") loaded in
  loading (ui jo) = false /\
  issues url_syntax "Invalid url" (values (form (ui jo))) = no_errors /\
  exists row : object,
    issued (submit url_syntax "Invalid url" alice "2026-01-01T00:00:00.000Z" jo)
    = issued jo ++ [upsert "profiles" row] /\
    row = [("id", "u-1"); ("username", "Jo"); ("website", ""); ("avatar_url", "");
           ("updated_at", "2026-01-01T00:00:00.000Z")] /\
    keys row = ["id"; "username"; "website"; "avatar_url"; "updated_at"] /\
    ~ In "email" (keys row) /\
    option_map email_input (form_view (render alice (ui jo)))
    = Some "alice@example.com".
Proof.
  split; [reflexivity|]. split; [reflexivity|].
  exact (upsert_record_fields url_syntax "Invalid url" alice
           "2026-01-01T00:00:00.000Z"
           (fill_in alice (mkValues "Jo" "" "") loaded) eq_refl eq_refl).
Defined.

End AccountProps.

(** ** Both pages *)

(** C8, as stated, fails: a thrown value that is not an [Error] instance
    is reported by the generic text even when it carries a message. *)
Lemma message_of_thrown_value_counterexample :
  ~ (forall (e : thrown) (text : string),
       message_of e = Some text ->
       Account.error
         (ui (settle 0
                (Fulfilled {| Account.Response.data := None;
                              Account.Response.error := Some e |})
                (Account.mount alice)))
       = Some text).
Proof.
  intros Hmessage.
  specialize (Hmessage (NotAnError (Some "permission denied for table profiles"))
                       "permission denied for table profiles" eq_refl).
  discriminate Hmessage.
Qed.

(** C8, amended: for every failed collaborator call of either page, the
    failure is reported with the [message] of the thrown value when that
    value is an [Error] instance, and with "An error occurred" for every
    other thrown value: as the description of a destructive toast on the
    sign-in page, as the [error] of the profile page after a load or a
    save. *)
Theorem failure_message_reported (e : thrown)
        (v : Auth.Values) (a : Auth.page) (ra : settled Auth.response)
        (session : Account.Session) (now : string) (pv : Account.Values)
        (p : Account.page) (rl rs : settled Account.Response.t) :
  Auth.failure ra = Some e ->
  Account.failure rl = Some e ->
  Account.failure rs = Some e ->
  Auth.toasts (ui (settle (length (pending a)) ra (exec (Auth.onSubmit v) a)))
  = Auth.toasts (ui a)
    ++ [{| variant := Destructive; title := "Error"; description := reported e |}] /\
  Account.error (ui (settle (length (pending p)) rl (Account.effect session p)))
  = Some (reported e) /\
  Account.error
    (ui (settle (length (pending p)) rs (exec (Account.onSubmit session now pv) p)))
  = Some (reported e) /\
  reported e = match e with
               | ErrorInstance message => message
               | NotAnError _ => "An error occurred"
               end.
Proof.
  intros Ha Hl Hs.
  rewrite AuthProps.onSubmit_settled, Ha.
  rewrite AccountProps.getProfile_settled, Hl.
  rewrite AccountProps.save_settled, Hs.
  repeat split.
Qed.

Lemma failure_message_reported_witness :
  let e := ErrorInstance "Email rate limit exceeded" in
  let ra := Fulfilled {| Auth.error := Some e |} in
  let rp : settled Account.Response.t := Rejected e in
  Auth.failure ra = Some e /\
  Account.failure rp = Some e /\
  Auth.toasts
    (ui (settle 0 ra (exec (Auth.onSubmit {| Auth.email := "a@b.co" |}) Auth.initial)))
  = [{| variant := Destructive; title := "Error";
        description := "Email rate limit exceeded" |}] /\
  Account.error (ui (settle 0 rp (Account.mount alice)))
  = Some "Email rate limit exceeded".
Proof.
  split; [reflexivity|]. split; [reflexivity|].
  destruct (failure_message_reported
              (ErrorInstance "Email rate limit exceeded")
              {| Auth.email := "a@b.co" |} Auth.initial
              (Fulfilled {| Auth.error := Some (ErrorInstance "Email rate limit exceeded") |})
              alice "2026-01-01T00:00:00.000Z" Account.defaultValues
              Account.first_render
              (Rejected (ErrorInstance "Email rate limit exceeded"))
              (Rejected (ErrorInstance "Email rate limit exceeded"))
              eq_refl eq_refl eq_refl)
    as (Htoast & Hload & _).
  exact (conj Htoast Hload).
Defined.

(** C9: in each of the three operations ([onSubmit] of the sign-in page,
    [getProfile] and [onSubmit] of the profile page) [loading] is set while
    the collaborator call is pending and is unset once the call has
    settled, however it settles; the settled call is no longer pending. *)
Theorem pending_flag_reset
        (v : Auth.Values) (a : Auth.page) (ra : settled Auth.response)
        (session : Account.Session) (now : string) (pv : Account.Values)
        (p : Account.page) (rp : settled Account.Response.t) :
  (Auth.loading (ui (exec (Auth.onSubmit v) a)) = true /\
   Auth.loading (ui (settle (length (pending a)) ra (exec (Auth.onSubmit v) a))) = false /\
   pending (settle (length (pending a)) ra (exec (Auth.onSubmit v) a)) = pending a) /\
  (Account.loading (ui (Account.effect session p)) = true /\
   Account.loading (ui (settle (length (pending p)) rp (Account.effect session p))) = false /\
   pending (settle (length (pending p)) rp (Account.effect session p)) = pending p) /\
  (Account.loading (ui (exec (Account.onSubmit session now pv) p)) = true /\
   Account.loading
     (ui (settle (length (pending p)) rp (exec (Account.onSubmit session now pv) p)))
   = false /\
   pending (settle (length (pending p)) rp (exec (Account.onSubmit session now pv) p))
   = pending p).
Proof.
  rewrite AuthProps.onSubmit_settled.
  rewrite AccountProps.getProfile_settled.
  rewrite AccountProps.save_settled.
  repeat split.
  - now destruct (Auth.failure ra).
  - now destruct (Account.failure rp), (Account.payload rp).
  - now destruct (Account.failure rp).
Qed.

(** * Further properties *)

(** ** The sign-in page, continued *)
Module AuthRuns.
Import Auth.

(** Every settled submission of the sign-in page raises exactly one toast,
    and none before the call settles: the "Magic link sent!" toast when the
    call went through, the destructive "Error" toast otherwise. *)
Theorem one_toast_per_submission (v : Values) (m : page) (r : settled response) :
  toasts (ui (exec (onSubmit v) m)) = toasts (ui m) /\
  toasts (ui (settle (length (pending m)) r (exec (onSubmit v) m)))
  = toasts (ui m) ++ [match failure r with
                      | None => sent_toast
                      | Some e => error_toast e
                      end].
Proof.
  split; [reflexivity|].
  rewrite AuthProps.onSubmit_settled.
  destruct r as [[[e|]]|e]; reflexivity.
Qed.

(** While the request of an accepted submission is pending, the page hides
    an earlier "Check your email" alert, keeps the address in the input,
    shows no field message, and has its button disabled under the label
    "Sending magic link".  A submission is accepted when the address passes
    the browser's check of the input and the schema's email check. *)
Theorem pending_view (input_valid is_email : string -> bool) (m : page) :
  loading (ui m) = false ->
  input_valid (email (values (form (ui m)))) = true ->
  is_email (email (values (form (ui m)))) = true ->
  render (ui (submit input_valid is_email m))
  = {| success_alert := false;
       email_input := email (values (form (ui m)));
       email_message := None;
       submit_disabled := true;
       submit_label := "Sending magic link" |}.
Proof.
  intros Hidle Hlet Hvalid.
  rewrite (AuthProps.submit_valid input_valid is_email m Hidle Hlet Hvalid).
  reflexivity.
Qed.

Lemma pending_view_witness :
  let m := settle 0 (Fulfilled {| error := None |})
                  (submit input_check email_syntax (typed "a@b.co")) in
  let again := edit (mkForm {| email := "c@d.org" |} no_errors) m in
  (loading (ui again) = false /\ showSuccess (ui again) = true) /\
  input_check (email (values (form (ui again)))) = true /\
  email_syntax (email (values (form (ui again)))) = true /\
  render (ui (submit input_check email_syntax again))
  = {| success_alert := false;
       email_input := "c@d.org";
       email_message := None;
       submit_disabled := true;
       submit_label := "Sending magic link" |}.
Proof.
  split; [split; reflexivity|]. split; [reflexivity|]. split; [reflexivity|].
  apply (pending_view input_check email_syntax
           (edit (mkForm {| email := "c@d.org" |} no_errors)
                 (settle 0 (Fulfilled {| error := None |})
                         (submit input_check email_syntax (typed "a@b.co")))));
    reflexivity.
Defined.

(** After a successful send the input is empty: when the schema's email
    check refuses the empty string, submitting again without typing sends
    nothing and leaves the "Check your email" alert on the page; the
    schema's message appears under the input when the browser lets the
    empty value through, and no message of the page when it does not. *)
Theorem resubmit_after_success (input_valid is_email : string -> bool) (m : page) :
  is_email "" = false ->
  loading (ui m) = false ->
  input_valid (email (values (form (ui m)))) = true ->
  is_email (email (values (form (ui m)))) = true ->
  let sent := settle (length (pending m)) (Fulfilled {| error := None |})
                     (submit input_valid is_email m) in
  let again := submit input_valid is_email sent in
  issued again = issued sent /\
  pending again = pending sent /\
  render (ui again)
  = {| success_alert := true;
       email_input := "";
       email_message := if input_valid ""
                        then Some "Please enter a valid email address."
                        else None;
       submit_disabled := false;
       submit_label := "Send magic link" |}.
Proof.
  intros Hempty Hidle Hlet Hvalid sent again; subst sent again.
  rewrite (AuthProps.submit_valid input_valid is_email m Hidle Hlet Hvalid).
  set (m0 := mkMachine _ (pending m) (issued m)).
  change (length (pending m)) with (length (pending m0)).
  rewrite AuthProps.onSubmit_settled; simpl.
  destruct (input_valid "") eqn:Hblank.
  - rewrite AuthProps.submit_invalid by (simpl; auto).
    repeat split.
  - rewrite AuthProps.submit_reported by (simpl; auto).
    repeat split.
Qed.

Lemma resubmit_after_success_witness :
  let m := typed "a@b.co" in
  let sent := settle 0 (Fulfilled {| error := None |})
                     (submit input_check email_syntax m) in
  email_syntax "" = false /\
  loading (ui m) = false /\
  input_check (email (values (form (ui m)))) = true /\
  email_syntax (email (values (form (ui m)))) = true /\
  issued (submit input_check email_syntax sent) = [signInWithOtp "a@b.co"] /\
  success_alert (render (ui (submit input_check email_syntax sent))) = true /\
  email_message (render (ui (submit input_check email_syntax sent)))
  = Some "Please enter a valid email address.".
Proof.
  split; [reflexivity|]. split; [reflexivity|]. split; [reflexivity|].
  split; [reflexivity|].
  destruct (resubmit_after_success input_check email_syntax (typed "a@b.co")
              eq_refl eq_refl eq_refl eq_refl) as (Hissued & _ & Hview).
  split; [exact Hissued|].
  split; [exact (f_equal success_alert Hview) | exact (f_equal email_message Hview)].
Defined.

Lemma accounted_step (input_valid is_email : string -> bool) (e : event) (m : page) :
  accounted m -> accounted (step input_valid is_email e m).
Proof.
  intros [Hone Hcount].
  split; [now apply AuthProps.one_in_flight_step|].
  destruct e as [f | | i r]; simpl.
  - exact Hcount.
  - destruct (loading (ui m)) eqn:Hbusy.
    + now rewrite (AuthProps.submit_disabled_noop input_valid is_email m Hbusy).
    + destruct (input_valid (email (values (form (ui m))))) eqn:Hlet.
      * destruct (is_email (email (values (form (ui m))))) eqn:Hvalid.
        -- rewrite (AuthProps.submit_valid input_valid is_email m Hbusy Hlet Hvalid);
             simpl.
           rewrite !length_app; simpl. lia.
        -- now rewrite (AuthProps.submit_invalid input_valid is_email m Hbusy Hlet Hvalid).
      * now rewrite (AuthProps.submit_reported input_valid is_email m Hlet).
  - unfold one_in_flight in Hone.
    destruct m as [st waiting log]; simpl in *.
    destruct (loading st) eqn:Hbusy.
    + destruct Hone as [v Hone]. simpl in Hone. subst waiting.
      destruct i as [|i].
      * unfold settle; simpl in *.
        destruct r as [[[e|]]|e]; simpl; rewrite length_app; simpl; lia.
      * rewrite settle_nothing by (simpl; lia). exact Hcount.
    + subst waiting. rewrite settle_nothing by (simpl; lia). exact Hcount.
Qed.

Lemma accounted_run (input_valid is_email : string -> bool) (es : list event)
      (m : page) :
  accounted m -> accounted (run input_valid is_email es m).
Proof.
  revert m.
  induction es as [|e es IH]; intros m Hm; simpl.
  - exact Hm.
  - apply IH. now apply accounted_step.
Qed.

(** Whatever the user and the collaborator do on the sign-in page, every
    [signInWithOtp] call issued so far is either still pending or has been
    answered by exactly one toast. *)
Theorem every_request_answered (input_valid is_email : string -> bool)
        (es : list event) :
  let m := run input_valid is_email es initial in
  length (issued m) = length (toasts (ui m)) + length (pending m).
Proof.
  intros m.
  assert (Hinv : accounted m).
  { apply accounted_run. split; reflexivity. }
  exact (proj2 Hinv).
Qed.

End AuthRuns.

(** ** Lists of pending calls, continued *)

Lemma remove_nth_cons {A : Type} (i : nat) (a : A) (l : list A) :
  remove_nth (S i) (a :: l) = a :: remove_nth i l.
Proof.
  reflexivity.
Qed.

Lemma filter_remove_nth {A : Type} (p : A -> bool) (l : list A) (i : nat) (x : A) :
  nth_error l i = Some x ->
  length (filter p (remove_nth i l)) + (if p x then 1 else 0)
  = length (filter p l).
Proof.
  revert i.
  induction l as [|a l IH]; intros [|i] Hnth; simpl in Hnth; try discriminate.
  - injection Hnth as ->.
    unfold remove_nth; simpl.
    destruct (p x); simpl; lia.
  - rewrite remove_nth_cons; simpl.
    specialize (IH i Hnth).
    destruct (p a); simpl; lia.
Qed.

Lemma Forall_remove_nth {A : Type} (P : A -> Prop) (l : list A) (i : nat) :
  Forall P l -> Forall P (remove_nth i l).
Proof.
  intros Hall. rewrite Forall_forall in *.
  intros x Hin. apply Hall.
  unfold remove_nth in Hin.
  apply in_app_or in Hin as [Hin | Hin].
  - eapply In_nth_error in Hin as [n Hn].
    apply nth_error_In with (n := n).
    rewrite nth_error_firstn in Hn.
    destruct (Nat.ltb n i); [exact Hn | discriminate].
  - apply In_nth_error in Hin as [n Hn].
    rewrite nth_error_skipn in Hn.
    now apply nth_error_In in Hn.
Qed.

Lemma snoc_not_same {A : Type} (l : list A) (x : A) : l ++ [x] <> l.
Proof.
  intros Heq. apply (f_equal (@length A)) in Heq.
  rewrite length_app in Heq; simpl in Heq. lia.
Qed.

(** ** The profile page, continued *)
Module AccountRuns.
Import Account.

(** *** Mounting and loading *)

(** When the page mounts it shows the loading skeleton, neither the form
    nor an alert, and it has issued one call: the read of the columns
    [username, website, avatar_url] of the row of [profiles] whose [id] is
    the session's user id. *)
Theorem mount_reads_own_row (session : Session) :
  render session (ui (mount session))
  = {| alert := None; skeleton := true; form_view := None |} /\
  issued (mount session)
  = [select_single "profiles" "username, website, avatar_url" (id (user session))] /\
  length (pending (mount session)) = 1.
Proof.
  repeat split.
Qed.

(** A load that resolves with a row replaces the whole form by the row,
    whatever the form held: each null column becomes the empty string, the
    field errors are dropped, and the form is on the page with the row's
    username and website in its inputs. *)
Theorem load_replaces_form (session : Session) (m : page) (data : ProfileRow) :
  let r := Fulfilled {| Response.data := Some data; Response.error := None |} in
  let m' := settle (length (pending m)) r (effect session m) in
  form (ui m')
  = mkForm {| username := or_empty (data_username data);
              website := or_empty (data_website data);
              avatar_url := or_empty (data_avatar_url data) |}
           no_errors /\
  render session (ui m')
  = {| alert := None;
       skeleton := false;
       form_view :=
         Some {| username_input := or_empty (data_username data);
                 username_message := None;
                 website_input := or_empty (data_website data);
                 website_message := None;
                 email_input := email (user session);
                 submit_disabled := false;
                 submit_label := "Update Profile" |} |}.
Proof.
  intros r m'; subst r m'.
  rewrite AccountProps.getProfile_settled; simpl.
  split; reflexivity.
Qed.

(** The effect has no cleanup: when it runs again while the first read is
    still pending, each response is applied when it arrives.  If the second
    read resolves first, [loading] is unset with the first read still in
    flight, and the row of the first read, arriving last, is what the form
    ends with. *)
Theorem late_response_wins (s1 s2 : Session) (m : page) (row1 row2 : ProfileRow) :
  let r1 := Fulfilled {| Response.data := Some row1; Response.error := None |} in
  let r2 := Fulfilled {| Response.data := Some row2; Response.error := None |} in
  let n := length (pending m) in
  let early := settle (S n) r2 (effect s2 (effect s1 m)) in
  let late := settle n r1 early in
  (loading (ui early) = false /\ length (pending early) = S n) /\
  values (form (ui late))
  = {| username := or_empty (data_username row1);
       website := or_empty (data_website row1);
       avatar_url := or_empty (data_avatar_url row1) |} /\
  pending late = pending m.
Proof.
  intros r1 r2 n early late; subst r1 r2 n early late.
  destruct m as [st waiting log]; unfold effect; simpl.
  match goal with
  | |- context [mkMachine _ ((waiting ++ [?first]) ++ _) _] =>
      replace (S (length waiting)) with (length (waiting ++ [first]))
        by (rewrite length_app; simpl; lia)
  end.
  rewrite settle_last; simpl.
  rewrite settle_last; simpl.
  rewrite length_app; simpl.
  repeat split.
Qed.

(** *** Saving *)

Lemma issues_decided (is_url : string -> bool) (invalid_url : string) (v : Values) :
  issues is_url invalid_url v = no_errors \/ issues is_url invalid_url v <> no_errors.
Proof.
  destruct (issues is_url invalid_url v) as [[a|] [b|] [c|]];
    try (right; discriminate).
  now left.
Qed.

Lemma issues_none_iff (is_url : string -> bool) (invalid_url : string) (v : Values) :
  issues is_url invalid_url v = no_errors <->
  2 <= String.length (username v) /\
  (website v = "" \/ is_url (website v) = true) /\
  (avatar_url v = "" \/ is_url (avatar_url v) = true).
Proof.
  unfold issues, no_errors, min2, url_or_empty.
  destruct (Nat.ltb_spec (String.length (username v)) 2) as [Hshort | Hlong];
    destruct (is_url (website v)) eqn:Hw;
    destruct (String.eqb_spec (website v) "") as [Hwe | Hwf];
    destruct (is_url (avatar_url v)) eqn:Ha;
    destruct (String.eqb_spec (avatar_url v) "") as [Hae | Haf];
    split; intros H;
    try discriminate; try reflexivity;
    try (repeat split; auto; fail);
    try (destruct H as (Hlen & [Hx | Hx] & [Hy | Hy]);
         first [lia | contradiction | discriminate]).
Qed.

(** A submission of the form on the page reaches the collaborator exactly
    when the username has at least 2 characters and each of website and
    avatar URL is empty or accepted by the URL check; a website or avatar
    URL that passes the check is saved as well as an empty one. *)
Theorem accepted_iff_schema (is_url : string -> bool) (invalid_url : string)
        (session : Session) (now : string) (m : page) :
  loading (ui m) = false ->
  let v := values (form (ui m)) in
  issued (submit is_url invalid_url session now m)
  = issued m ++ [upsert "profiles" (updates session now v)]
  <->
  2 <= String.length (username v) /\
  (website v = "" \/ is_url (website v) = true) /\
  (avatar_url v = "" \/ is_url (avatar_url v) = true).
Proof.
  intros Hshown v.
  rewrite <- (issues_none_iff is_url invalid_url v).
  destruct (issues_decided is_url invalid_url v) as [Hnone | Hsome].
  - rewrite (AccountProps.save_valid _ _ session now m Hshown Hnone); simpl.
    split; auto.
  - rewrite (AccountProps.save_invalid _ _ session now m Hshown Hsome); simpl.
    split; intros H.
    + symmetry in H. now apply snoc_not_same in H.
    + contradiction.
Qed.

Lemma accepted_iff_schema_witness :
  let stamp := "2026-01-01T00:00:00.000Z" in
  let v := mkValues "Jo" "https://example.com" "" in
  let m := fill_in alice v loaded in
  loading (ui m) = false /\
  issued (submit url_syntax "Invalid url" alice stamp m)
  = issued m ++ [upsert "profiles" (updates alice stamp v)].
Proof.
  split; [reflexivity|].
  apply (accepted_iff_schema url_syntax "Invalid url" alice
           "2026-01-01T00:00:00.000Z"
           (fill_in alice (mkValues "Jo" "https://example.com" "") loaded) eq_refl).
  simpl. split; [lia|]. split; [right; reflexivity | left; reflexivity].
Defined.

(** While the [upsert] of an accepted submission is pending the page shows
    the loading skeleton in place of the form and no alert, whatever error
    was shown before; and whenever the form is on the page its button is
    enabled and labelled "Update Profile", so the label "Saving..." is
    never on the page. *)
Theorem saving_shows_skeleton (is_url : string -> bool) (invalid_url : string)
        (session : Session) (now : string) (m : page) :
  loading (ui m) = false ->
  issues is_url invalid_url (values (form (ui m))) = no_errors ->
  render session (ui (submit is_url invalid_url session now m))
  = {| alert := None; skeleton := true; form_view := None |} /\
  (forall (st : State) (shown : FormView),
     form_view (render session st) = Some shown ->
     submit_disabled shown = false /\ submit_label shown = "Update Profile").
Proof.
  intros Hshown Hnone. split.
  - now rewrite (AccountProps.save_valid _ _ session now m Hshown Hnone).
  - intros st shown. unfold render; simpl.
    destruct (loading st); [discriminate|].
    intros Hform. injection Hform as <-. split; reflexivity.
Qed.

Lemma saving_shows_skeleton_witness :
  let failed := settle 0 (Rejected (ErrorInstance "Failed to fetch")) (mount alice) in
  let m := fill_in alice (mkValues "Jo" "" "") failed in
  loading (ui m) = false /\
  issues url_syntax "Invalid url" (values (form (ui m))) = no_errors /\
  alert (render alice (ui m)) = Some "Failed to fetch" /\
  render alice (ui (submit url_syntax "Invalid url" alice "2026-01-01T00:00:00.000Z" m))
  = {| alert := None; skeleton := true; form_view := None |}.
Proof.
  split; [reflexivity|]. split; [reflexivity|]. split; [reflexivity|].
  exact (proj1 (saving_shows_skeleton url_syntax "Invalid url" alice
                  "2026-01-01T00:00:00.000Z"
                  (fill_in alice (mkValues "Jo" "" "")
                     (settle 0 (Rejected (ErrorInstance "Failed to fetch")) (mount alice)))
                  eq_refl eq_refl)).
Defined.

(** When the [upsert] of an accepted submission goes through, the page
    raises the "Profile updated" toast, has no error left (an alert from an
    earlier failure is gone), and shows the form again with the submitted
    values and without field messages. *)
Theorem saved_profile (is_url : string -> bool) (invalid_url : string)
        (session : Session) (now : string) (m : page) (r : settled Response.t) :
  loading (ui m) = false ->
  issues is_url invalid_url (values (form (ui m))) = no_errors ->
  failure r = None ->
  let m' := settle (length (pending m)) r (submit is_url invalid_url session now m) in
  toasts (ui m') = toasts (ui m) ++ [updated_toast] /\
  error (ui m') = None /\
  form (ui m') = mkForm (values (form (ui m))) no_errors /\
  render session (ui m')
  = {| alert := None;
       skeleton := false;
       form_view :=
         Some {| username_input := username (values (form (ui m)));
                 username_message := None;
                 website_input := website (values (form (ui m)));
                 website_message := None;
                 email_input := email (user session);
                 submit_disabled := false;
                 submit_label := "Update Profile" |} |}.
Proof.
  intros Hshown Hnone Hok m'; subst m'.
  rewrite (AccountProps.save_valid _ _ session now m Hshown Hnone).
  set (m0 := mkMachine _ (pending m) (issued m)).
  change (length (pending m)) with (length (pending m0)).
  rewrite AccountProps.save_settled, Hok; simpl.
  repeat split.
Qed.

Lemma saved_profile_witness :
  let failed := settle 0 (Rejected (ErrorInstance "Failed to fetch")) (mount alice) in
  let m := fill_in alice (mkValues "Jo" "" "") failed in
  let r : settled Response.t :=
    Fulfilled {| Response.data := None; Response.error := None |} in
  let m' := settle 0 r (submit url_syntax "Invalid url" alice "2026-01-01T00:00:00.000Z" m) in
  loading (ui m) = false /\
  issues url_syntax "Invalid url" (values (form (ui m))) = no_errors /\
  failure r = None /\
  error (ui m) = Some "Failed to fetch" /\
  toasts (ui m') = [updated_toast] /\
  error (ui m') = None.
Proof.
  split; [reflexivity|]. split; [reflexivity|]. split; [reflexivity|].
  split; [reflexivity|].
  destruct (saved_profile url_syntax "Invalid url" alice "2026-01-01T00:00:00.000Z"
              (fill_in alice (mkValues "Jo" "" "")
                 (settle 0 (Rejected (ErrorInstance "Failed to fetch")) (mount alice)))
              (Fulfilled {| Response.data := None; Response.error := None |})
              eq_refl eq_refl eq_refl)
    as (Htoasts & Herror & _).
  exact (conj Htoasts Herror).
Defined.

(** The schema checks [avatar_url], but the form has inputs for username
    and website only.  When the form holds an avatar URL that is neither
    empty nor accepted by the URL check, whatever the user types in the two
    inputs the submission issues no call; with a valid username and website
    the form shows no message at all, the only error being the one stored
    for [avatar_url]. *)
Theorem unsaveable_avatar_url (is_url : string -> bool) (invalid_url : string)
        (session : Session) (now : string) (m : page) (u w : string) :
  loading (ui m) = false ->
  avatar_url (values (form (ui m))) <> "" ->
  is_url (avatar_url (values (form (ui m)))) = false ->
  let m' := submit is_url invalid_url session now (type_fields session u w m) in
  issued m' = issued m /\
  pending m' = pending m /\
  avatar_url_error (errors (form (ui m'))) = Some invalid_url /\
  (2 <= String.length u -> w = "" \/ is_url w = true ->
   form_view (render session (ui m'))
   = Some {| username_input := u;
             username_message := None;
             website_input := w;
             website_message := None;
             email_input := email (user session);
             submit_disabled := false;
             submit_label := "Update Profile" |}).
Proof.
  intros Hshown Hfilled Hbad m'; subst m'.
  assert (Htyped : type_fields session u w m
                   = mkMachine
                       (mkState false (error (ui m))
                                (mkForm {| username := u; website := w;
                                           avatar_url := avatar_url (values (form (ui m))) |}
                                        (errors (form (ui m))))
                                (toasts (ui m)))
                       (pending m) (issued m)).
  { unfold type_fields, edit, render; simpl. now rewrite Hshown. }
  rewrite Htyped.
  rewrite AccountProps.save_invalid; simpl.
  - rewrite (AccountProps.url_or_empty_refuses _ _ _ Hfilled Hbad).
    repeat split.
    intros Hlong Hwebsite.
    rewrite (AccountProps.min2_accepts _ Hlong).
    destruct Hwebsite as [-> | Hurl].
    + now rewrite AccountProps.url_or_empty_empty.
    + unfold url_or_empty. now rewrite Hurl.
  - reflexivity.
  - simpl. intros Hnone.
    apply (f_equal avatar_url_error) in Hnone; simpl in Hnone.
    rewrite (AccountProps.url_or_empty_refuses _ _ _ Hfilled Hbad) in Hnone.
    discriminate.
Qed.

Lemma unsaveable_avatar_url_witness :
  let row := {| data_username := Some "Jo"; data_website := None;
                data_avatar_url := Some "avatars/jo.png" |} in
  let m := settle 0 (Fulfilled {| Response.data := Some row; Response.error := None |})
                  (mount alice) in
  let m' := submit url_syntax "Invalid url" alice "2026-01-01T00:00:00.000Z"
                   (type_fields alice "Joanna" "https://example.com" m) in
  loading (ui m) = false /\
  avatar_url (values (form (ui m))) <> "" /\
  url_syntax (avatar_url (values (form (ui m)))) = false /\
  issued m' = issued m /\
  option_map username_message (form_view (render alice (ui m'))) = Some None /\
  option_map website_message (form_view (render alice (ui m'))) = Some None.
Proof.
  split; [reflexivity|]. split; [discriminate|]. split; [reflexivity|].
  destruct (unsaveable_avatar_url url_syntax "Invalid url" alice
              "2026-01-01T00:00:00.000Z"
              (settle 0
                 (Fulfilled {| Response.data :=
                                 Some {| data_username := Some "Jo";
                                         data_website := None;
                                         data_avatar_url := Some "avatars/jo.png" |};
                               Response.error := None |})
                 (mount alice))
              "Joanna" "https://example.com"
              eq_refl ltac:(discriminate) eq_refl)
    as (Hissued & _ & _ & Hview).
  split; [exact Hissued|].
  assert (Hlong : 2 <= String.length "Joanna") by (simpl; lia).
  specialize (Hview Hlong (or_intror eq_refl)).
  split.
  - exact (f_equal (option_map username_message) Hview).
  - exact (f_equal (option_map website_message) Hview).
Defined.

(** *** Signing out *)

Lemma sign_out_clicked (session : Session) (m : page) :
  loading (ui m) = false -> click_sign_out session m = exec handleSignOut m.
Proof.
  intros Hshown. unfold click_sign_out, render; simpl. now rewrite Hshown.
Qed.

Lemma signOut_settled (m : page) (r : settled Response.t) :
  settle (length (pending m)) r (exec handleSignOut m)
  = mkMachine
      match r with
      | Fulfilled _ => mkState (loading (ui m)) (error (ui m)) (form (ui m))
                               (toasts (ui m) ++ [signed_out_toast])
      | Rejected _ => ui m
      end
      (pending m) (issued m ++ [signOut]).
Proof.
  destruct m as [st waiting log]; simpl.
  rewrite settle_last.
  destruct r as [res|e]; reflexivity.
Qed.

(** A click on "Sign Out" issues one [signOut] call and changes nothing on
    the page until the call settles.  When the call resolves, with whatever
    value (also one that carries an error), only the "Signed out" toast is
    added; when it is rejected nothing is added and nothing changes:
    [handleSignOut] has no [catch] and never sets [loading] or [error]. *)
Theorem sign_out_reports_success (session : Session) (m : page)
        (r : settled Response.t) :
  loading (ui m) = false ->
  let clicked := click_sign_out session m in
  let m' := settle (length (pending m)) r clicked in
  issued clicked = issued m ++ [signOut] /\
  ui clicked = ui m /\
  issued m' = issued clicked /\
  pending m' = pending m /\
  loading (ui m') = false /\
  error (ui m') = error (ui m) /\
  form (ui m') = form (ui m) /\
  toasts (ui m') = match r with
                   | Fulfilled _ => toasts (ui m) ++ [signed_out_toast]
                   | Rejected _ => toasts (ui m)
                   end.
Proof.
  intros Hshown clicked m'; subst clicked m'.
  rewrite (sign_out_clicked session m Hshown).
  rewrite signOut_settled.
  destruct r as [res|e]; simpl; repeat split; assumption.
Qed.

Lemma sign_out_reports_success_witness :
  let r : settled Response.t :=
    Fulfilled {| Response.data := None;
                 Response.error := Some (ErrorInstance "Failed to fetch") |} in
  let m' := settle 0 r (click_sign_out alice loaded) in
  loading (ui loaded) = false /\
  issued m' = issued loaded ++ [signOut] /\
  error (ui m') = None /\
  toasts (ui m') = [signed_out_toast].
Proof.
  split; [reflexivity|].
  destruct (sign_out_reports_success alice loaded
              (Fulfilled {| Response.data := None;
                            Response.error := Some (ErrorInstance "Failed to fetch") |})
              eq_refl)
    as (Hclicked & _ & Hissued & _ & _ & Herror & _ & Htoasts).
  split; [exact (eq_trans Hissued Hclicked)|].
  split; [exact Herror | exact Htoasts].
Defined.

(** "Sign Out" is a button of the form: while [loading] is set it is not
    on the page and a click does nothing.  On the form it has no guard of
    its own: a second click while the first sign-out is pending issues a
    second [signOut] call. *)
Theorem sign_out_availability (session : Session) (m : page) :
  (loading (ui m) = true -> click_sign_out session m = m) /\
  (loading (ui m) = false ->
   issued (click_sign_out session (click_sign_out session m))
   = issued m ++ [signOut; signOut] /\
   length (pending (click_sign_out session (click_sign_out session m)))
   = length (pending m) + 2).
Proof.
  split; intros Hbusy.
  - unfold click_sign_out, render; simpl. now rewrite Hbusy.
  - rewrite (sign_out_clicked session m Hbusy).
    rewrite sign_out_clicked by exact Hbusy.
    simpl. rewrite <- app_assoc, !length_app; simpl.
    split; [reflexivity | lia].
Qed.

Lemma sign_out_availability_witness :
  (loading (ui (mount alice)) = true /\
   click_sign_out alice (mount alice) = mount alice) /\
  (loading (ui loaded) = false /\
   issued (click_sign_out alice (click_sign_out alice loaded))
   = issued loaded ++ [signOut; signOut]).
Proof.
  destruct (sign_out_availability alice (mount alice)) as [Hhidden _].
  destruct (sign_out_availability alice loaded) as [_ Hshown].
  split.
  - split; [reflexivity | exact (Hhidden eq_refl)].
  - split; [reflexivity | exact (proj1 (Hshown eq_refl))].
Defined.

(** *** Runs of the mounted page *)

Lemma getProfile_settles_quietly (session : Session) (m : page) :
  Forall settles_quietly (pending (exec (getProfile session) (mkMachine (ui m) [] []))).
Proof.
  simpl. constructor; [|constructor].
  intros r m'. destruct m' as [st waiting log].
  destruct r as [[[data|] [e|]]|e]; simpl; repeat split.
Qed.

Lemma onSubmit_settles_quietly (session : Session) (now : string) (v : Values) (m : page) :
  Forall settles_quietly
         (pending (exec (onSubmit session now v) (mkMachine (ui m) [] []))).
Proof.
  simpl. constructor; [|constructor].
  intros r m'. destruct m' as [st waiting log].
  destruct r as [[data [e|]]|e]; simpl; repeat split.
Qed.

Lemma handleSignOut_settles_quietly (m : page) :
  Forall settles_quietly (pending (exec handleSignOut (mkMachine (ui m) [] []))).
Proof.
  simpl. constructor; [|constructor].
  intros r m'. destruct m' as [st waiting log].
  destruct r as [res|e]; simpl; repeat split.
Qed.

Lemma steady_mount (session : Session) : steady (mount session).
Proof.
  split.
  - exact (getProfile_settles_quietly session first_render).
  - reflexivity.
Qed.

Lemma steady_step (is_url : string -> bool) (invalid_url : string)
      (session : Session) (e : profile_event) (m : page) :
  steady m -> steady (profile_step is_url invalid_url session e m).
Proof.
  intros [Hall Hcount].
  destruct e as [f | now | | i r]; simpl.
  - unfold edit.
    destruct (form_view (render session (ui m))); split; assumption.
  - destruct (loading (ui m)) eqn:Hbusy.
    + rewrite (AccountProps.submit_hidden_noop _ _ session now m Hbusy).
      split; [assumption | now rewrite Hbusy].
    + destruct (issues_decided is_url invalid_url (values (form (ui m))))
        as [Hnone | Hsome].
      * rewrite (AccountProps.save_valid _ _ session now m Hbusy Hnone).
        split; simpl.
        -- apply Forall_app. split; [assumption|].
           exact (onSubmit_settles_quietly session now (values (form (ui m))) m).
        -- rewrite filter_app, length_app; simpl.
           exact (f_equal (fun n => n + 1) Hcount).
      * rewrite (AccountProps.save_invalid _ _ session now m Hbusy Hsome).
        split; simpl; assumption.
  - destruct (loading (ui m)) eqn:Hbusy.
    + unfold click_sign_out, render; simpl. rewrite Hbusy.
      split; [assumption | now rewrite Hbusy].
    + rewrite (sign_out_clicked session m Hbusy).
      split; simpl.
      * apply Forall_app. split; [assumption|].
        exact (handleSignOut_settles_quietly m).
      * rewrite filter_app, length_app, Hbusy; simpl.
        exact (f_equal (fun n => n + 0) Hcount).
  - unfold settle.
    destruct (nth_error (pending m) i) as [[q k]|] eqn:Hnth;
      [|split; assumption].
    assert (Hquiet : settles_quietly (q, k)).
    { rewrite Forall_forall in Hall. apply Hall.
      now apply nth_error_In with (n := i). }
    destruct (Hquiet r (mkMachine (ui m) (remove_nth i (pending m)) (issued m)))
      as (Hpending & _ & Hloading).
    simpl in Hpending, Hloading.
    pose proof (filter_remove_nth is_data_call (pending m) i (q, k) Hnth) as Hless.
    unfold is_data_call at 2 in Hless; simpl in Hless.
    split.
    + rewrite Hpending. now apply Forall_remove_nth.
    + rewrite Hpending, Hloading.
      unfold page, handler_body in *.
      destruct (data_call q), (loading (ui m)); lia.
Qed.

Lemma steady_run (is_url : string -> bool) (invalid_url : string)
      (session : Session) (es : list profile_event) (m : page) :
  steady m -> steady (profile_run is_url invalid_url session es m).
Proof.
  revert m.
  induction es as [|e es IH]; intros m Hm; simpl.
  - exact Hm.
  - apply IH. now apply steady_step.
Qed.

(** On a page that was mounted once, whatever the user and the
    collaborators do (edits, submissions, sign-out clicks, calls settling
    in any order), a read or write of the profile is in flight exactly
    while [loading] is set, and never more than one: the skeleton is on the
    page exactly then. *)
Theorem one_profile_call_in_flight (is_url : string -> bool) (invalid_url : string)
        (session : Session) (es : list profile_event) :
  let m := profile_run is_url invalid_url session es (mount session) in
  length (filter is_data_call (pending m))
  = (if skeleton (render session (ui m)) then 1 else 0).
Proof.
  intros m.
  assert (Hinv : steady m) by (apply steady_run, steady_mount).
  exact (proj2 Hinv).
Qed.

End AccountRuns.
